(** * DiagTask: a serial diagnostic console with incremental hook matching

    Shallow embedding of [diagtask.hpp] / [diagtask.cpp] (DiagTask 1.1) and
    the properties of its input automaton, hook registry, special commands,
    tab completion and wildcard arguments.

    Conventions of the embedding.
    - A C string is the [string] of the characters before its terminating
      NUL; [strlen] is [String.length].  A value of type [string] that holds
      the character NUL does not denote a C string.
    - [int] values (the result of [getch]) are [Z]; the conversion to [char]
      keeps the low eight bits.  [uint16_t] and [uint32_t] values are
      written with their wrap-around.
    - A function pointer is an abstract address ([hook_fn]); calling it is
      an event of the trace, as is every [putchar] and [printf].
    - The preprocessor configuration of [diagtask.hpp] is a record
      ([Config]); [default_config] holds the values of the header. *)

From Stdlib Require Import ZArith NArith List String Ascii Bool Lia.
From Stdlib Require Import DecimalString.
Import ListNotations.

Local Open Scope list_scope.

(** ** Preprocessor configuration ([diagtask.hpp], lines 49-131) *)

Record Config : Type := mkConfig {
  DIAGTASK_ENABLE_HELP : bool;
  DIAGTASK_ENABLE_SEPARATOR : bool;
  DIAGTASK_ENABLE_SEARCH : bool;
  DIAGTASK_ENABLE_REBOOT : bool;
  DIAGTASK_ENABLE_TAB_COMPLETION : bool;
  DIAGTASK_MAX_HOOKNAME_LEN : nat;
  DIAGTASK_MAX_HOOK_INPUT_LEN : nat;
  DIAGTASK_MIN_HOOKNAME_LEN : nat;
  DIAGTASK_HOOKDESC_LEN : nat
}.

(** The values the header gives when the user defines nothing. *)
Definition default_config : Config :=
  {| DIAGTASK_ENABLE_HELP := true;
     DIAGTASK_ENABLE_SEPARATOR := true;
     DIAGTASK_ENABLE_SEARCH := false;
     DIAGTASK_ENABLE_REBOOT := true;
     DIAGTASK_ENABLE_TAB_COMPLETION := true;
     DIAGTASK_MAX_HOOKNAME_LEN := 20;
     DIAGTASK_MAX_HOOK_INPUT_LEN := 20 + 10;
     DIAGTASK_MIN_HOOKNAME_LEN := 1;
     DIAGTASK_HOOKDESC_LEN := 20 |}.

(** ** Characters and the reserved keywords ([diagtask.cpp], lines 54-60) *)

Definition NUL : ascii := "000"%char.
Definition LF : ascii := "010"%char.
Definition CR : ascii := "013"%char.

Definition SPECIAL_KEYWORD_HELP : ascii := "?"%char.
Definition SPECIAL_KEYWORD_SEPARATOR : ascii := "#"%char.
Definition SPECIAL_KEYWORD_SEARCH : ascii := "/"%char.
Definition SPECIAL_KEYWORD_TAB : ascii := "009"%char.
Definition SPECIAL_KEYWORD_REBOOT : ascii := "!"%char.
Definition SPECIAL_KEYWORD_WILDCARD : ascii := "*"%char.

(** The value of a character constant as an [int]. *)
Definition int_of_char (c : ascii) : Z := Z.of_N (N_of_ascii c).

(** Conversion of an [int] to [char]: the low eight bits. *)
Definition char_of_int (c : Z) : ascii := ascii_of_N (Z.to_N (c mod 256)).

(** ** C string functions *)

Module CStr.

Definition strlen (s : string) : nat := String.length s.

(** [strchr s c]: offset of the first [c] in [s], [None] for a null result. *)
Fixpoint strchr (s : string) (c : ascii) : option nat :=
  match s with
  | EmptyString => None
  | String x r =>
      if Ascii.eqb x c then Some 0
      else match strchr r c with
           | Some p => Some (S p)
           | None => None
           end
  end.

(** [strncmp a b n == 0]: the first [n] characters agree, or both strings
    end together before that. *)
Fixpoint strncmp_eq (a b : string) (n : nat) : bool :=
  match n with
  | 0 => true
  | S n' =>
      match a, b with
      | EmptyString, EmptyString => true
      | String x a', String y b' =>
          if Ascii.eqb x y then strncmp_eq a' b' n' else false
      | _, _ => false
      end
  end.

(** [strncpy(dst, src, n); dst[n] = 0]: at most [n] characters of [src]. *)
Fixpoint strncpy0 (src : string) (n : nat) : string :=
  match n, src with
  | S n', String x r => String x (strncpy0 r n')
  | _, _ => EmptyString
  end.

(** [buf[len] = c; buf[len+1] = 0] with [len = strlen buf]: the character is
    added at the end; storing NUL leaves the string as it was. *)
Definition store_at_end (buf : string) (c : ascii) : string :=
  if Ascii.eqb c NUL then buf else (buf ++ String c EmptyString)%string.

(** [buf[len] = 0]: the string is cut after [len] characters. *)
Fixpoint cut_at (len : nat) (buf : string) : string :=
  match len, buf with
  | S n, String x r => String x (cut_at n r)
  | _, _ => EmptyString
  end.

(** [&buf[i]] read as a string, for [i <= strlen buf]. *)
Fixpoint from_offset (i : nat) (buf : string) : string :=
  match i, buf with
  | S n, String _ r => from_offset n r
  | _, _ => buf
  end.

(** [buf[i]] for [i <= strlen buf]; the terminator reads as NUL. *)
Definition char_at (i : nat) (buf : string) : ascii :=
  match String.get i buf with
  | Some c => c
  | None => NUL
  end.

End CStr.

Import CStr.

(** ** Data model ([diagtask.hpp], lines 146-182) *)

(** A non-null pointer to a hook function taking the input text. *)
Definition hook_fn : Type := nat.

Record hookEntry_t : Type := mkHook {
  name : string;
  description : string;
  hook : hook_fn
}.

Definition diagtask_vector : Type := list hookEntry_t.

Definition feature_None : N := 0.
Definition feature_Help : N := 1.
Definition feature_Seperator : N := 2.
Definition feature_Search : N := 4.
Definition feature_Reboot : N := 8.
Definition feature_TabCompletion : N := 16.

(** The object, with the function-local static counter of
    [privDisplaySeparator].  The three function pointers are kept as
    "is it non-null"; what they return comes from the [World]. *)
Record DiagTask : Type := mkDiagTask {
  mHooks : diagtask_vector;
  mFeatures : N;
  mCurrentValidInput : string;
  mGetchar : bool;
  mUptime : bool;
  mReboot : bool;
  count : N
}.

(** What the external functions answer during one call of [process]. *)
Record World : Type := mkWorld {
  getch : Z;
  uptime : N
}.

(** Observable effects, in program order. *)
Inductive event : Type :=
| Putchar (c : ascii)
| Printf (text : string)
| PrintfOutsideName (typed : string) (descr : string)
| Call (f : hook_fn) (input : string)
| Reboot.

(** Whether a call comes back to its caller ([while(1);] does not). *)
Inductive control : Type := Returns | NeverReturns.

Record Run : Type := mkRun {
  final : DiagTask;
  trace : list event;
  ctl : control
}.

Definition set_input (st : DiagTask) (buf : string) : DiagTask :=
  {| mHooks := mHooks st; mFeatures := mFeatures st;
     mCurrentValidInput := buf;
     mGetchar := mGetchar st; mUptime := mUptime st; mReboot := mReboot st;
     count := count st |}.

(** [mCurrentValidInput[0] = 0]. *)
Definition reset_input (st : DiagTask) : DiagTask := set_input st EmptyString.

(** The constructors (lines 69-83); a missing argument is a null pointer. *)
Definition DiagTask_new (getch_set uptime_set reboot_set : bool) : DiagTask :=
  {| mHooks := []; mFeatures := feature_None;
     mCurrentValidInput := EmptyString;
     mGetchar := getch_set; mUptime := uptime_set; mReboot := reboot_set;
     count := 0 |}.

(** [mFeatures & f] read as a condition. *)
Definition has_feature (st : DiagTask) (f : N) : bool :=
  negb (N.land (mFeatures st) f =? 0)%N.

(** ** privFindHooks (lines 269-294) *)

Definition uint16 (n : nat) : nat := Z.to_nat (Z.of_nat n mod 65536).

Definition hook_selected (lenInput : nat) (prefix : string) (h : hookEntry_t)
  : bool :=
  let posWildcard := strchr (name h) SPECIAL_KEYWORD_WILDCARD in
  let lenHook := uint16 (match posWildcard with
                         | None => strlen (name h)
                         | Some p => p
                         end) in
  let lenMin := Nat.min lenHook lenInput in
  strncmp_eq (name h) prefix lenMin.

Definition privFindHooks (hooks : diagtask_vector) (prefix : string)
  : diagtask_vector :=
  let lenInput := uint16 (strlen prefix) in
  fold_left
    (fun filterredHooks h =>
       if hook_selected lenInput prefix h
       then filterredHooks ++ [h]
       else filterredHooks)
    hooks [].

(** ** Text produced by [printf] *)

Definition nl : string := String LF EmptyString.
Definition tab : string := String SPECIAL_KEYWORD_TAB EmptyString.

Fixpoint spaces (n : nat) : string :=
  match n with
  | 0 => EmptyString
  | S k => String " "%char (spaces k)
  end.

(** [%-20s] and [%5lu]: padding to a minimal width, never a truncation. *)
Definition left_justify (width : nat) (s : string) : string :=
  (s ++ spaces (width - String.length s))%string.

Definition right_justify (width : nat) (s : string) : string :=
  (spaces (width - String.length s) ++ s)%string.

Definition decimal (n : N) : string := NilZero.string_of_uint (N.to_uint n).

(** ["%c - help\n"] and its siblings. *)
Definition keyword_line (k : ascii) (what : string) : string :=
  (String k EmptyString ++ " - " ++ what ++ nl)%string.

(** ["%-20s\t%s\n"] *)
Definition hook_line (h : hookEntry_t) : string :=
  (left_justify 20 (name h) ++ tab ++ description h ++ nl)%string.

(** ["[%s]%-20s\t%s\n"] *)
Definition candidate_line (typed rest descr : string) : string :=
  ("[" ++ typed ++ "]" ++ left_justify 20 rest ++ tab ++ descr ++ nl)%string.

Definition separator_bar : string :=
  ("###########################################" ++ nl)%string.

(** [putchar(c)] of lines 101-109 ([ENABLE_ECHO] is defined as 1 in
    [diagtask.cpp]): the four keywords are not echoed; the comparison is on
    the [int]. *)
Definition echo (c : Z) : list event :=
  if negb (c =? int_of_char SPECIAL_KEYWORD_TAB)%Z
     && negb (c =? int_of_char SPECIAL_KEYWORD_SEPARATOR)%Z
     && negb (c =? int_of_char SPECIAL_KEYWORD_HELP)%Z
     && negb (c =? int_of_char SPECIAL_KEYWORD_REBOOT)%Z
  then [Putchar (char_of_int c)]
  else [].

(** Lines 97-98: NUL and carriage return become line feed. *)
Definition normalize (c : Z) : Z :=
  if (c =? 0)%Z || (c =? int_of_char CR)%Z then int_of_char LF else c.

(** What [privCheckAndProcessSpecialChars] answers. *)
Inductive special_result : Type := Handled | NotHandled | NoReturn.

Section Console.

Context (cfg : Config).

(** ** privHelp (lines 377-403) *)

Definition privHelp (st : DiagTask) : list event :=
  [Printf nl]
  ++ (if DIAGTASK_ENABLE_HELP cfg
      then [Printf (keyword_line SPECIAL_KEYWORD_HELP "help")] else [])
  ++ (if DIAGTASK_ENABLE_SEARCH cfg
      then [Printf (keyword_line SPECIAL_KEYWORD_SEARCH "search")] else [])
  ++ (if DIAGTASK_ENABLE_SEPARATOR cfg
      then [Printf (keyword_line SPECIAL_KEYWORD_SEPARATOR "separator")]
      else [])
  ++ (if DIAGTASK_ENABLE_REBOOT cfg
      then [Printf (keyword_line SPECIAL_KEYWORD_REBOOT "reboot")] else [])
  ++ map (fun h => Printf (hook_line h)) (mHooks st).

(** ** privDisplaySeparator (lines 405-416) *)

Definition privDisplaySeparator (w : World) (st : DiagTask)
  : DiagTask * list event :=
  let shown := if mUptime st then uptime w else 0%N in
  ( {| mHooks := mHooks st; mFeatures := mFeatures st;
       mCurrentValidInput := mCurrentValidInput st;
       mGetchar := mGetchar st; mUptime := mUptime st; mReboot := mReboot st;
       count := ((count st + 1) mod 2 ^ 32)%N |},
    [ Printf (nl ++ nl ++ nl ++ nl)%string;
      Printf separator_bar;
      Printf ("### SEPARATOR " ++ right_justify 5 (decimal (count st))
              ++ " ######  " ++ right_justify 10 (decimal shown)
              ++ "  ###" ++ nl)%string;
      Printf separator_bar;
      Printf (nl ++ nl ++ nl ++ nl)%string ] ).

(** ** privCheckAndProcessSpecialChars (lines 296-339) *)

Definition privCheckAndProcessSpecialChars (w : World) (st : DiagTask)
  (input : ascii) : special_result * DiagTask * list event :=
  if DIAGTASK_ENABLE_HELP cfg && has_feature st feature_Help
     && Ascii.eqb input SPECIAL_KEYWORD_HELP
  then (Handled, reset_input st, privHelp st)
  else if DIAGTASK_ENABLE_SEPARATOR cfg && has_feature st feature_Seperator
          && Ascii.eqb input SPECIAL_KEYWORD_SEPARATOR
  then let '(st1, out) := privDisplaySeparator w st in
       (Handled, reset_input st1, out)
  else if DIAGTASK_ENABLE_REBOOT cfg && has_feature st feature_Reboot
          && mReboot st && Ascii.eqb input SPECIAL_KEYWORD_REBOOT
  then (NoReturn, st, [Printf ("rebooting" ++ nl)%string; Reboot])
  else if DIAGTASK_ENABLE_SEARCH cfg && has_feature st feature_Search
          && Ascii.eqb input SPECIAL_KEYWORD_SEARCH
  then (Handled, reset_input st, [Printf ("net yet implemented" ++ nl)%string])
  else (NotHandled, st, []).

(** ** processTabCompetion (lines 341-374)

    [&h.name[len]] lies in the name array while [len] is at most
    [DIAGTASK_MAX_HOOKNAME_LEN] (the array is NUL-padded by [strncpy]);
    beyond it the text printed is not determined by the name. *)

Definition tab_candidate (typed : string) (h : hookEntry_t) : event :=
  let len := strlen typed in
  if len <=? DIAGTASK_MAX_HOOKNAME_LEN cfg
  then Printf (candidate_line typed (from_offset len (name h)) (description h))
  else PrintfOutsideName typed (description h).

Definition processTabCompetion (st : DiagTask) (input : ascii)
  : bool * DiagTask * list event :=
  if DIAGTASK_ENABLE_TAB_COMPLETION cfg
     && has_feature st feature_TabCompletion
     && Ascii.eqb input SPECIAL_KEYWORD_TAB
  then
    match mCurrentValidInput st with
    | EmptyString => (true, st, [])
    | String _ _ =>
        let filterredHooks := privFindHooks (mHooks st) (mCurrentValidInput st) in
        match filterredHooks with
        | [h] =>
            (true, reset_input st,
             [Printf ("[" ++ name h ++ "]" ++ nl)%string;
              Call (hook h) EmptyString])
        | _ =>
            (true, st,
             Printf nl :: map (tab_candidate (mCurrentValidInput st))
                              filterredHooks)
        end
    end
  else (false, st, []).

(** ** process (lines 85-187) *)

(** Lines 136-184: the character is stored and the hooks are filtered.
    [len] is the length of the input before the store. *)
Definition accumulate (st : DiagTask) (len : nat) (c : ascii) : Run :=
  let st1 := set_input st (store_at_end (mCurrentValidInput st) c) in
  let filterredHooks := privFindHooks (mHooks st1) (mCurrentValidInput st1) in
  match filterredHooks with
  | [] => mkRun (reset_input st1) [] Returns
  | [h] =>
      if strlen (name h) <=? strlen (mCurrentValidInput st1) then
        match strchr (name h) SPECIAL_KEYWORD_WILDCARD with
        | Some argIdx =>
            if Ascii.eqb (char_at len (mCurrentValidInput st1)) LF then
              let st2 := set_input st1 (cut_at len (mCurrentValidInput st1)) in
              mkRun (reset_input st2)
                    [Putchar LF;
                     Call (hook h) (from_offset argIdx (mCurrentValidInput st2))]
                    Returns
            else mkRun st1 [] Returns
        | None =>
            mkRun (reset_input st1)
                  [Putchar LF; Call (hook h) EmptyString] Returns
        end
      else mkRun st1 [] Returns
  | _ => mkRun st1 [] Returns
  end.

(** The body of the [while] loop, run once for the character [c]. *)
Definition process_char (w : World) (st : DiagTask) (c : Z) : Run :=
  let len := strlen (mCurrentValidInput st) in
  if len =? DIAGTASK_MAX_HOOK_INPUT_LEN cfg then
    mkRun (reset_input st) [] Returns
  else
    let '(special, st1, out1) :=
      match mCurrentValidInput st with
      | EmptyString => privCheckAndProcessSpecialChars w st (char_of_int c)
      | String _ _ => (NotHandled, st, [])
      end in
    match special with
    | NoReturn => mkRun st1 out1 NeverReturns
    | Handled => mkRun st1 out1 Returns
    | NotHandled =>
        let '(tabbed, st2, out2) := processTabCompetion st1 (char_of_int c) in
        if tabbed then mkRun st2 (out1 ++ out2) Returns
        else
          let r := accumulate st2 len (char_of_int c) in
          mkRun (final r) (out1 ++ out2 ++ trace r) (ctl r)
    end.

Definition process (w : World) (st : DiagTask) : Run :=
  if negb (mGetchar st) then mkRun st [] Returns
  else
    let c := getch w in
    if (c <? 0)%Z then mkRun st [] Returns
    else
      let c := normalize c in
      let r := process_char w st c in
      mkRun (final r) (echo c ++ trace r) (ctl r).

(** ** registerHook (lines 190-219)

    A null pointer argument is [None].  The registry is the [std::vector]
    of the default build ([DIAGTASK_USE_ETL] is 0): [push_back] always
    succeeds. *)
Definition registerHook (st : DiagTask) (name_arg : option string)
  (hook_arg : option hook_fn) (description_arg : option string)
  : bool * DiagTask :=
  match name_arg, hook_arg with
  | Some nm, Some f =>
      let len := strlen nm in
      if (len <? DIAGTASK_MIN_HOOKNAME_LEN cfg)
         || (DIAGTASK_MAX_HOOKNAME_LEN cfg <? len)
      then (false, st)
      else
        let entry :=
          {| name := strncpy0 nm (DIAGTASK_MAX_HOOKNAME_LEN cfg);
             description :=
               match description_arg with
               | Some d => strncpy0 d (DIAGTASK_HOOKDESC_LEN cfg)
               | None => EmptyString
               end;
             hook := f |} in
        (true,
         {| mHooks := mHooks st ++ [entry]; mFeatures := mFeatures st;
            mCurrentValidInput := mCurrentValidInput st;
            mGetchar := mGetchar st; mUptime := mUptime st;
            mReboot := mReboot st; count := count st |})
  | _, _ => (false, st)
  end.

(** ** enableFeatures (lines 221-224) *)
Definition enableFeatures (st : DiagTask) (features : N) : DiagTask :=
  {| mHooks := mHooks st; mFeatures := features;
     mCurrentValidInput := mCurrentValidInput st;
     mGetchar := mGetchar st; mUptime := mUptime st; mReboot := mReboot st;
     count := count st |}.

End Console.

(** ** The match engine as the specification words it

    The static length of a hook name is the number of characters before
    its wildcard marker, or its full length without one; a hook is a
    candidate when its name and the input agree on their first
    [min staticLength (length input)] characters. *)

Fixpoint staticLength (nm : string) : nat :=
  match nm with
  | EmptyString => 0
  | String x r =>
      if Ascii.eqb x SPECIAL_KEYWORD_WILDCARD then 0 else S (staticLength r)
  end.

Definition equal_over (n : nat) (a b : string) : bool :=
  String.eqb (substring 0 n a) (substring 0 n b).

Definition is_candidate (prefixText : string) (h : hookEntry_t) : bool :=
  equal_over (Nat.min (staticLength (name h)) (String.length prefixText))
             (name h) prefixText.

Definition findCandidates (hooks : diagtask_vector) (prefixText : string)
  : diagtask_vector :=
  filter (is_candidate prefixText) hooks.

(** A name has a wildcard marker when [strchr] finds one. *)
Definition has_wildcard (nm : string) : bool :=
  match strchr nm SPECIAL_KEYWORD_WILDCARD with
  | Some _ => true
  | None => false
  end.

(** The lengths [privFindHooks] can hold in its [uint16_t] variables. *)
Definition fits_uint16 (s : string) : Prop :=
  (Z.of_nat (String.length s) < 65536)%Z.

(** ** Observations on a run *)

(** The hook calls of a trace, in order, with their arguments. *)
Fixpoint calls (t : list event) : list (hook_fn * string) :=
  match t with
  | [] => []
  | Call f input :: r => (f, input) :: calls r
  | _ :: r => calls r
  end.

(** A special command leaves a mark: text printed with [printf], the
    reboot function called, a call that does not come back, or the
    separator counter moved. *)
Definition special_effect (st : DiagTask) (r : Run) : Prop :=
  (exists text, In (Printf text) (trace r))
  \/ In Reboot (trace r)
  \/ ctl r = NeverReturns
  \/ count (final r) <> count st.

(** The feature bit that guards each special keyword. *)
Definition feature_of (c : ascii) : N :=
  if Ascii.eqb c SPECIAL_KEYWORD_HELP then feature_Help
  else if Ascii.eqb c SPECIAL_KEYWORD_SEPARATOR then feature_Seperator
  else if Ascii.eqb c SPECIAL_KEYWORD_SEARCH then feature_Search
  else if Ascii.eqb c SPECIAL_KEYWORD_REBOOT then feature_Reboot
  else feature_None.

Definition is_special_keyword (c : ascii) : bool :=
  Ascii.eqb c SPECIAL_KEYWORD_HELP || Ascii.eqb c SPECIAL_KEYWORD_SEPARATOR
  || Ascii.eqb c SPECIAL_KEYWORD_SEARCH || Ascii.eqb c SPECIAL_KEYWORD_REBOOT.

Section Paths.

Context (cfg : Config).

(** The special-command test of line 129 lets the character through. *)
Definition special_declines (w : World) (st : DiagTask) (c : ascii) : bool :=
  match mCurrentValidInput st with
  | EmptyString =>
      match fst (fst (privCheckAndProcessSpecialChars cfg w st c)) with
      | NotHandled => true
      | _ => false
      end
  | String _ _ => true
  end.

(** The tab test of line 133 lets the character through. *)
Definition tab_declines (st : DiagTask) (c : ascii) : bool :=
  negb (fst (fst (processTabCompetion cfg st c))).

(** The character [c] gets to the store of line 136. *)
Definition reaches_store (w : World) (st : DiagTask) (c : ascii) : bool :=
  negb (strlen (mCurrentValidInput st) =? DIAGTASK_MAX_HOOK_INPUT_LEN cfg)
  && special_declines w st c
  && tab_declines st c.

(** The invariant of the input buffer: bounded, and empty or still matched
    by a registered hook. *)
Definition buffer_ok (st : DiagTask) : Prop :=
  strlen (mCurrentValidInput st) <= DIAGTASK_MAX_HOOK_INPUT_LEN cfg
  /\ (mCurrentValidInput st = EmptyString
      \/ privFindHooks (mHooks st) (mCurrentValidInput st) <> []).

(** The public operations, and a console driven by a list of them. *)
Inductive operation : Type :=
| OpProcess (w : World)
| OpRegisterHook (name_arg : option string) (hook_arg : option hook_fn)
                 (description_arg : option string)
| OpEnableFeatures (features : N).

Definition apply_operation (st : DiagTask) (o : operation) : DiagTask :=
  match o with
  | OpProcess w => final (process cfg w st)
  | OpRegisterHook n f d => snd (registerHook cfg st n f d)
  | OpEnableFeatures m => enableFeatures st m
  end.

Definition run_operations (st : DiagTask) (ops : list operation) : DiagTask :=
  fold_left apply_operation ops st.

(** Typing the characters of [text], one [process] call each. *)
Definition type_text (st : DiagTask) (text : string) : DiagTask :=
  run_operations st
    (map (fun c => OpProcess (mkWorld (int_of_char c) 0))
         (list_ascii_of_string text)).

End Paths.

(** ** Consoles used as concrete instances (default configuration) *)

(** A console with a byte source, the given hooks registered in order with
    an empty description, and the given feature mask. *)
Definition console_with (hooks : list (string * hook_fn)) (features : N)
  : DiagTask :=
  enableFeatures
    (run_operations default_config (DiagTask_new true false false)
       (map (fun nf => OpRegisterHook (Some (fst nf)) (Some (snd nf))
                                      (Some EmptyString))
            hooks))
    features.

(** The byte source answers the character [c]. *)
Definition key (c : ascii) : World := mkWorld (int_of_char c) 0.

(** Hooks ["abc"] and ["abd"], nothing typed, and after ["ab"]. *)
Definition abc_abd_console : DiagTask :=
  console_with [("abc"%string, 1); ("abd"%string, 2)] 0.

Definition abc_abd_typed_ab : DiagTask :=
  type_text default_config abc_abd_console "ab".

(** The single hook ["abc"]. *)
Definition abc_console : DiagTask := console_with [("abc"%string, 1)] 0.

(** The wildcard hook ["cmd *"] after ["cmd foo"] was typed. *)
Definition cmd_typed_foo : DiagTask :=
  type_text default_config (console_with [("cmd *"%string, 7)] 0) "cmd foo".

(** A hook whose wildcard marker is not its last character, after ["ax"]. *)
Definition mid_wildcard_typed_ax : DiagTask :=
  type_text default_config (console_with [("a*bc"%string, 7)] 0) "ax".

(** The wildcard hook ["cmd *"] with help and tab completion enabled, after
    thirty characters were typed: the input is at its capacity. *)
Definition cmd_typed_full : DiagTask :=
  type_text default_config
    (console_with [("cmd *"%string, 7)]
                  (N.lor feature_Help feature_TabCompletion))
    "cmd abcdefghijklmnopqrstuvwxyz".

(** A hook whose name holds the help keyword, help enabled, after ["a"]. *)
Definition help_in_name_typed_a : DiagTask :=
  type_text default_config (console_with [("a?b"%string, 5)] feature_Help) "a".

(** Tab completion enabled and ["ab"] typed: with the hooks ["abc"] and
    ["abd"] two candidates remain, with the hook ["abc"] alone one. *)
Definition tab_two_typed_ab : DiagTask :=
  type_text default_config
    (console_with [("abc"%string, 1); ("abd"%string, 2)]
                  feature_TabCompletion) "ab".

Definition tab_one_typed_ab : DiagTask :=
  type_text default_config
    (console_with [("abc"%string, 1)] feature_TabCompletion) "ab".

(** Only the help feature is enabled; no reboot function is configured. *)
Definition help_only_console : DiagTask :=
  console_with [("abc"%string, 1)] feature_Help.

(** ** Further notions of the specification *)

(** The static portion of a hook name: what stands before the wildcard
    marker. *)
Definition static_part (nm : string) : string :=
  substring 0 (staticLength nm) nm.

(** Every registered name fits its array. *)
Definition registry_ok (cfg : Config) (st : DiagTask) : Prop :=
  Forall (fun h => strlen (name h) <= DIAGTASK_MAX_HOOKNAME_LEN cfg)
         (mHooks st).

(** The hook calls made while [text] is typed, one [process] call for each
    character. *)
Fixpoint typed_calls (cfg : Config) (st : DiagTask) (text : string)
  : list (hook_fn * string) :=
  match text with
  | EmptyString => []
  | String c rest =>
      let r := process cfg (mkWorld (int_of_char c) 0) st in
      calls (trace r) ++ typed_calls cfg (final r) rest
  end.

(** ** Notions used by the further properties *)

(** The preprocessor switch of each special keyword. *)
Definition keyword_compiled (cfg : Config) (c : ascii) : bool :=
  if Ascii.eqb c SPECIAL_KEYWORD_HELP then DIAGTASK_ENABLE_HELP cfg
  else if Ascii.eqb c SPECIAL_KEYWORD_SEPARATOR
       then DIAGTASK_ENABLE_SEPARATOR cfg
  else if Ascii.eqb c SPECIAL_KEYWORD_SEARCH then DIAGTASK_ENABLE_SEARCH cfg
  else if Ascii.eqb c SPECIAL_KEYWORD_REBOOT then DIAGTASK_ENABLE_REBOOT cfg
  else false.

(** A special keyword is armed when its command is compiled in, its
    feature bit is set and, for the reboot keyword, a reboot function was
    given to the constructor. *)
Definition keyword_armed (cfg : Config) (st : DiagTask) (c : ascii) : bool :=
  keyword_compiled cfg c
  && has_feature st (feature_of c)
  && (if Ascii.eqb c SPECIAL_KEYWORD_REBOOT then mReboot st else true).

Definition tab_armed (cfg : Config) (st : DiagTask) : bool :=
  DIAGTASK_ENABLE_TAB_COMPLETION cfg && has_feature st feature_TabCompletion.

(** An entry fits the arrays of [hookEntry_t] and the bounds of
    [registerHook]. *)
Definition entry_fits (cfg : Config) (h : hookEntry_t) : Prop :=
  DIAGTASK_MIN_HOOKNAME_LEN cfg <= strlen (name h)
  /\ strlen (name h) <= DIAGTASK_MAX_HOOKNAME_LEN cfg
  /\ strlen (description h) <= DIAGTASK_HOOKDESC_LEN cfg.

(** The static portion of [h1] is a prefix of the static portion of [h2]. *)
Definition shadows (h1 h2 : hookEntry_t) : Prop :=
  String.prefix (static_part (name h1)) (static_part (name h2)) = true.

(** A [printf] whose string argument starts outside the name array. *)
Definition reads_outside_name (e : event) : bool :=
  match e with
  | PrintfOutsideName _ _ => true
  | _ => false
  end.

(** A console built with a reboot function, the reboot feature enabled. *)
Definition reboot_console : DiagTask :=
  enableFeatures (DiagTask_new true false true) feature_Reboot.

(** A build whose input buffer is one character longer than a name. *)
Definition short_input_config : Config :=
  {| DIAGTASK_ENABLE_HELP := true;
     DIAGTASK_ENABLE_SEPARATOR := true;
     DIAGTASK_ENABLE_SEARCH := false;
     DIAGTASK_ENABLE_REBOOT := true;
     DIAGTASK_ENABLE_TAB_COMPLETION := true;
     DIAGTASK_MAX_HOOKNAME_LEN := 20;
     DIAGTASK_MAX_HOOK_INPUT_LEN := 21;
     DIAGTASK_MIN_HOOKNAME_LEN := 1;
     DIAGTASK_HOOKDESC_LEN := 20 |}.

(** Two wildcard hooks with tab completion, after 26 characters. *)
Definition long_input_two_candidates : DiagTask :=
  type_text default_config
    (console_with [("a*"%string, 1); ("ab*"%string, 2)] feature_TabCompletion)
    "abcdefghijklmnopqrstuvwxyz".

(** * Properties *)

(** ** Facts on C strings *)

Lemma strlen_store_at_end (buf : string) (c : ascii) :
  strlen (store_at_end buf c)
  = if Ascii.eqb c NUL then strlen buf else S (strlen buf).
Proof.
  unfold store_at_end, strlen.
  destruct (Ascii.eqb c NUL); [reflexivity|].
  induction buf as [|x r IH]; simpl; [reflexivity|].
  now rewrite IH.
Qed.

Lemma get_append_end (buf : string) (c : ascii) :
  String.get (String.length buf) (buf ++ String c EmptyString) = Some c.
Proof.
  induction buf as [|x r IH]; simpl; [reflexivity|exact IH].
Qed.

Lemma get_at_length (buf : string) : String.get (String.length buf) buf = None.
Proof.
  induction buf as [|x r IH]; simpl; [reflexivity|exact IH].
Qed.

(** The character read back at the old end of the input is the one stored. *)
Lemma char_at_store_at_end (buf : string) (c : ascii) :
  char_at (strlen buf) (store_at_end buf c) = c.
Proof.
  unfold char_at, store_at_end, strlen.
  destruct (Ascii.eqb_spec c NUL) as [->|_].
  - now rewrite get_at_length.
  - now rewrite get_append_end.
Qed.

Lemma cut_at_append (buf rest : string) :
  cut_at (String.length buf) (buf ++ rest) = buf.
Proof.
  induction buf as [|x r IH]; simpl.
  - now destruct rest.
  - now rewrite IH.
Qed.

(** Removing the stored character gives the input back. *)
Lemma cut_at_store_at_end (buf : string) (c : ascii) :
  cut_at (strlen buf) (store_at_end buf c) = buf.
Proof.
  unfold store_at_end, strlen.
  destruct (Ascii.eqb c NUL).
  - induction buf as [|x r IH]; simpl; [reflexivity|now rewrite IH].
  - apply cut_at_append.
Qed.

Lemma strncpy0_short (s : string) (n : nat) :
  String.length s <= n -> strncpy0 s n = s.
Proof.
  revert n; induction s as [|x r IH]; intros [|n] H; simpl in *;
    try reflexivity; try lia.
  rewrite IH; [reflexivity|lia].
Qed.

Lemma strncpy0_length (s : string) (n : nat) :
  String.length (strncpy0 s n) = Nat.min (String.length s) n.
Proof.
  revert n; induction s as [|x r IH]; intros [|n]; simpl; try reflexivity.
  now rewrite IH.
Qed.

Lemma strncpy0_substring (s : string) (n : nat) :
  strncpy0 s n = substring 0 n s.
Proof.
  revert n; induction s as [|x r IH]; intros [|n]; simpl; try reflexivity.
  now rewrite IH.
Qed.

(** [strncmp] answers 0 exactly when the strings agree on their first [n]
    characters. *)
Lemma strncmp_eq_substring (a b : string) (n : nat) :
  strncmp_eq a b n = String.eqb (substring 0 n a) (substring 0 n b).
Proof.
  revert a b; induction n as [|n IH]; intros a b.
  - destruct a, b; reflexivity.
  - destruct a as [|x a], b as [|y b]; simpl; try reflexivity.
    rewrite IH. reflexivity.
Qed.

Lemma uint16_small (n : nat) : (Z.of_nat n < 65536)%Z -> uint16 n = n.
Proof.
  intros H. unfold uint16.
  rewrite Z.mod_small by lia. apply Nat2Z.id.
Qed.

(** ** The match engine *)

Lemma strchr_staticLength (nm : string) :
  match strchr nm SPECIAL_KEYWORD_WILDCARD with
  | None => strlen nm
  | Some p => p
  end = staticLength nm.
Proof.
  induction nm as [|x r IH]; simpl; [reflexivity|].
  destruct (Ascii.eqb x SPECIAL_KEYWORD_WILDCARD); [reflexivity|].
  destruct (strchr r SPECIAL_KEYWORD_WILDCARD); simpl in *; now rewrite IH.
Qed.

Lemma staticLength_le (nm : string) : staticLength nm <= String.length nm.
Proof.
  induction nm as [|x r IH]; simpl; [lia|].
  destruct (Ascii.eqb x SPECIAL_KEYWORD_WILDCARD); lia.
Qed.

Lemma strchr_lt (nm : string) (c : ascii) (p : nat) :
  strchr nm c = Some p -> p < String.length nm.
Proof.
  revert p; induction nm as [|x r IH]; intros p; simpl; [discriminate|].
  destruct (Ascii.eqb x c).
  - intros [= <-]. lia.
  - destruct (strchr r c) as [q|]; [|discriminate].
    intros [= <-]. specialize (IH q eq_refl). lia.
Qed.

(** The loop with [push_back] is a filter that keeps the order. *)
Lemma push_back_loop {A : Type} (keep : A -> bool) (l acc : list A) :
  fold_left (fun out x => if keep x then out ++ [x] else out) l acc
  = acc ++ filter keep l.
Proof.
  revert acc; induction l as [|x l IH]; intros acc; simpl.
  - now rewrite app_nil_r.
  - rewrite IH. destruct (keep x); [|reflexivity].
    now rewrite <- app_assoc.
Qed.

Lemma privFindHooks_filter (hooks : diagtask_vector) (prefix : string) :
  privFindHooks hooks prefix
  = filter (hook_selected (uint16 (strlen prefix)) prefix) hooks.
Proof.
  unfold privFindHooks. now rewrite push_back_loop.
Qed.

Lemma hook_selected_is_candidate (prefix : string) (h : hookEntry_t) :
  fits_uint16 prefix -> fits_uint16 (name h) ->
  hook_selected (uint16 (strlen prefix)) prefix h = is_candidate prefix h.
Proof.
  unfold fits_uint16, hook_selected, is_candidate, equal_over; intros Hp Hh.
  rewrite strchr_staticLength.
  pose proof (staticLength_le (name h)).
  rewrite !uint16_small by (unfold strlen; lia).
  apply strncmp_eq_substring.
Qed.

(** The loop of [privFindHooks] computes the filter of the specification
    when the lengths fit its 16-bit variables. *)
Lemma privFindHooks_findCandidates
  (hooks : diagtask_vector) (prefixText : string) :
  fits_uint16 prefixText ->
  Forall (fun h => fits_uint16 (name h)) hooks ->
  privFindHooks hooks prefixText = findCandidates hooks prefixText.
Proof.
  intros Hp Hh. rewrite privFindHooks_filter. unfold findCandidates.
  induction Hh as [|h l Hx _ IH]; simpl; [reflexivity|].
  rewrite (hook_selected_is_candidate _ _ Hp Hx), IH. reflexivity.
Qed.

(** C3: for every hook list and input whose lengths fit the 16-bit length
    variables of [privFindHooks], the function returns exactly the hooks, in
    registration order, whose name agrees with the input on the first
    [min staticLength (length input)] characters, where the static length
    is the number of characters before the wildcard marker, or the length
    of the name without one. *)
Theorem privFindHooks_returns_candidates
  (hooks : diagtask_vector) (prefixText : string) :
  fits_uint16 prefixText ->
  Forall (fun h => fits_uint16 (name h)) hooks ->
  privFindHooks hooks prefixText
  = filter (fun h =>
              String.eqb
                (substring 0 (Nat.min (staticLength (name h))
                                      (String.length prefixText)) (name h))
                (substring 0 (Nat.min (staticLength (name h))
                                      (String.length prefixText)) prefixText))
           hooks.
Proof. exact (privFindHooks_findCandidates hooks prefixText). Qed.

(** The hooks [1] and [3] are found for the input ["abc"]. *)
Lemma privFindHooks_returns_candidates_witness :
  privFindHooks [mkHook "abc" "" 1; mkHook "xyz" "" 2; mkHook "a*" "" 3;
                 mkHook "abd" "" 4] "abc"
  = findCandidates [mkHook "abc" "" 1; mkHook "xyz" "" 2; mkHook "a*" "" 3;
                    mkHook "abd" "" 4] "abc"
  /\ findCandidates [mkHook "abc" "" 1; mkHook "xyz" "" 2; mkHook "a*" "" 3;
                     mkHook "abd" "" 4] "abc"
     = [mkHook "abc" "" 1; mkHook "a*" "" 3].
Proof.
  split; [|reflexivity].
  apply (privFindHooks_returns_candidates
           [mkHook "abc" "" 1; mkHook "xyz" "" 2; mkHook "a*" "" 3;
            mkHook "abd" "" 4] "abc").
  - unfold fits_uint16. simpl. lia.
  - repeat constructor; unfold fits_uint16; simpl; lia.
Defined.

(** ** The control flow of [process] *)

Lemma special_not_handled (cfg : Config) (w : World) (st : DiagTask)
  (c : ascii) :
  fst (fst (privCheckAndProcessSpecialChars cfg w st c)) = NotHandled ->
  privCheckAndProcessSpecialChars cfg w st c = (NotHandled, st, []).
Proof.
  unfold privCheckAndProcessSpecialChars.
  repeat match goal with
         | |- context [if ?b then _ else _] => destruct b
         end; simpl; try discriminate; reflexivity.
Qed.

Lemma tab_not_taken (cfg : Config) (st : DiagTask) (c : ascii) :
  fst (fst (processTabCompetion cfg st c)) = false ->
  processTabCompetion cfg st c = (false, st, []).
Proof.
  unfold processTabCompetion.
  destruct (_ && _ && _); [|reflexivity].
  destruct (mCurrentValidInput st); [discriminate|].
  destruct (privFindHooks _ _) as [|h [|h' l]]; discriminate.
Qed.

Lemma run_eta (r : Run) : mkRun (final r) (trace r) (ctl r) = r.
Proof. now destruct r. Qed.

(** A character that passes the three tests is stored and matched. *)
Lemma process_char_store (cfg : Config) (w : World) (st : DiagTask) (c : Z) :
  reaches_store cfg w st (char_of_int c) = true ->
  process_char cfg w st c
  = accumulate st (strlen (mCurrentValidInput st)) (char_of_int c).
Proof.
  unfold reaches_store, special_declines, tab_declines, process_char.
  intros H. apply andb_prop in H as [H Ht]. apply andb_prop in H as [Hf Hs].
  apply negb_true_iff in Hf, Ht. rewrite Hf.
  assert (Hsp :
    match mCurrentValidInput st with
    | EmptyString => privCheckAndProcessSpecialChars cfg w st (char_of_int c)
    | String _ _ => (NotHandled, st, [])
    end = (NotHandled, st, [])).
  { destruct (mCurrentValidInput st); [|reflexivity].
    apply special_not_handled.
    destruct (fst (fst (privCheckAndProcessSpecialChars cfg w st (char_of_int c))));
      congruence. }
  rewrite Hsp. rewrite (tab_not_taken _ _ _ Ht). simpl.
  apply run_eta.
Qed.

(** With a byte source and a pending byte, [process] echoes and runs the
    loop body once. *)
Lemma process_pending (cfg : Config) (w : World) (st : DiagTask) :
  mGetchar st = true -> (0 <= getch w)%Z ->
  process cfg w st
  = mkRun (final (process_char cfg w st (normalize (getch w))))
          (echo (normalize (getch w))
           ++ trace (process_char cfg w st (normalize (getch w))))
          (ctl (process_char cfg w st (normalize (getch w)))).
Proof.
  intros Hg Hc. unfold process. rewrite Hg. simpl.
  destruct (Z.ltb_spec (getch w) 0); [lia|reflexivity].
Qed.

Lemma calls_app (a b : list event) : calls (a ++ b) = calls a ++ calls b.
Proof.
  induction a as [|e a IH]; simpl; [reflexivity|].
  destruct e; simpl; now rewrite IH.
Qed.

Lemma calls_echo (c : Z) : calls (echo c) = [].
Proof. unfold echo. now destruct (_ && _ && _ && _). Qed.

(** [&buf[i]] is the rest of the string from offset [i]. *)
Lemma from_offset_substring (i : nat) (buf : string) :
  from_offset i buf = substring i (String.length buf - i) buf.
Proof.
  revert i; induction buf as [|x r IH]; intros [|i]; simpl; try reflexivity.
  - f_equal. clear IH. induction r as [|y r IH]; simpl; [reflexivity|].
    now rewrite <- IH.
  - apply IH.
Qed.

Lemma has_wildcard_false (nm : string) :
  has_wildcard nm = false -> strchr nm SPECIAL_KEYWORD_WILDCARD = None.
Proof.
  unfold has_wildcard. now destruct (strchr nm SPECIAL_KEYWORD_WILDCARD).
Qed.

(** The three outcomes of the store-and-match step that call no hook. *)
Lemma accumulate_ambiguous (st : DiagTask) (len : nat) (c : ascii) :
  2 <= List.length (privFindHooks (mHooks st)
                 (store_at_end (mCurrentValidInput st) c)) ->
  accumulate st len c
  = mkRun (set_input st (store_at_end (mCurrentValidInput st) c)) [] Returns.
Proof.
  unfold accumulate; simpl.
  destruct (privFindHooks _ _) as [|h [|h' l]]; simpl; try lia.
  reflexivity.
Qed.

Lemma accumulate_partial (st : DiagTask) (len : nat) (c : ascii)
  (h : hookEntry_t) :
  privFindHooks (mHooks st) (store_at_end (mCurrentValidInput st) c) = [h] ->
  strlen (store_at_end (mCurrentValidInput st) c) < strlen (name h) ->
  accumulate st len c
  = mkRun (set_input st (store_at_end (mCurrentValidInput st) c)) [] Returns.
Proof.
  unfold accumulate; simpl. intros -> Hlt.
  destruct (Nat.leb_spec (strlen (name h))
              (strlen (store_at_end (mCurrentValidInput st) c))); [lia|].
  reflexivity.
Qed.

Lemma accumulate_plain (st : DiagTask) (len : nat) (c : ascii)
  (h : hookEntry_t) :
  privFindHooks (mHooks st) (store_at_end (mCurrentValidInput st) c) = [h] ->
  strlen (name h) <= strlen (store_at_end (mCurrentValidInput st) c) ->
  strchr (name h) SPECIAL_KEYWORD_WILDCARD = None ->
  accumulate st len c
  = mkRun (reset_input st) [Putchar LF; Call (hook h) EmptyString] Returns.
Proof.
  unfold accumulate; simpl. intros -> Hle ->.
  destruct (Nat.leb_spec (strlen (name h))
              (strlen (store_at_end (mCurrentValidInput st) c))); [|lia].
  reflexivity.
Qed.

Lemma accumulate_wildcard (st : DiagTask) (c : ascii) (h : hookEntry_t)
  (argIdx : nat) :
  privFindHooks (mHooks st) (store_at_end (mCurrentValidInput st) c) = [h] ->
  strlen (name h) <= strlen (store_at_end (mCurrentValidInput st) c) ->
  strchr (name h) SPECIAL_KEYWORD_WILDCARD = Some argIdx ->
  accumulate st (strlen (mCurrentValidInput st)) c
  = if Ascii.eqb c LF
    then mkRun (reset_input st)
               [Putchar LF;
                Call (hook h) (from_offset argIdx (mCurrentValidInput st))]
               Returns
    else mkRun (set_input st (store_at_end (mCurrentValidInput st) c))
               [] Returns.
Proof.
  unfold accumulate; simpl. intros -> Hle ->.
  destruct (Nat.leb_spec (strlen (name h))
              (strlen (store_at_end (mCurrentValidInput st) c))); [|lia].
  rewrite char_at_store_at_end, cut_at_store_at_end.
  reflexivity.
Qed.

(** C2: once a character is stored, a single remaining candidate without
    wildcard whose whole name has been typed is called at once with the
    empty argument and the input is reset; with two or more candidates, or
    an input shorter than the static length of the single candidate, no
    hook is called and the input is kept for the next character. *)
Theorem process_plain_hook_fires_or_waits
  (cfg : Config) (w : World) (st : DiagTask) :
  mGetchar st = true -> (0 <= getch w)%Z ->
  reaches_store cfg w st (char_of_int (normalize (getch w))) = true ->
  let c := normalize (getch w) in
  let input := store_at_end (mCurrentValidInput st) (char_of_int c) in
  let candidates := privFindHooks (mHooks st) input in
  let r := process cfg w st in
  (forall h, candidates = [h] -> has_wildcard (name h) = false ->
             strlen (name h) <= strlen input ->
             trace r = echo c ++ [Putchar LF; Call (hook h) EmptyString]
             /\ calls (trace r) = [(hook h, EmptyString)]
             /\ final r = reset_input st /\ ctl r = Returns)
  /\ (2 <= List.length candidates ->
      trace r = echo c /\ calls (trace r) = []
      /\ final r = set_input st input /\ ctl r = Returns)
  /\ (forall h, candidates = [h] -> strlen input < staticLength (name h) ->
      trace r = echo c /\ calls (trace r) = []
      /\ final r = set_input st input /\ ctl r = Returns).
Proof.
  intros Hg Hc Hs. cbv zeta.
  rewrite (process_pending _ _ _ Hg Hc), (process_char_store _ _ _ _ Hs).
  cbn [final trace ctl].
  split; [|split].
  - intros h Hh Hw Hl.
    rewrite (accumulate_plain _ _ _ h Hh Hl (has_wildcard_false _ Hw)).
    cbn [final trace ctl]. rewrite calls_app, calls_echo. auto.
  - intros Hn. rewrite (accumulate_ambiguous _ _ _ Hn).
    cbn [final trace ctl]. rewrite app_nil_r, calls_echo. auto.
  - intros h Hh Hlt. pose proof (staticLength_le (name h)) as Hsl.
    rewrite (accumulate_partial _ _ _ h Hh) by (unfold strlen in *; lia).
    cbn [final trace ctl]. rewrite app_nil_r, calls_echo. auto.
Qed.

(** ["abc"] fires on its last character; ["a"] waits with two candidates
    and with one. *)
Lemma process_plain_hook_fires_or_waits_witness :
  (calls (trace (process default_config (key "c") abc_abd_typed_ab))
   = [(1, EmptyString)]
   /\ mCurrentValidInput
        (final (process default_config (key "c") abc_abd_typed_ab))
      = EmptyString)
  /\ (calls (trace (process default_config (key "a") abc_abd_console)) = []
      /\ mCurrentValidInput
           (final (process default_config (key "a") abc_abd_console))
         = "a"%string)
  /\ (calls (trace (process default_config (key "a") abc_console)) = []
      /\ mCurrentValidInput
           (final (process default_config (key "a") abc_console))
         = "a"%string).
Proof.
  split; [|split].
  - destruct (process_plain_hook_fires_or_waits default_config (key "c")
                abc_abd_typed_ab
                eq_refl ltac:(vm_compute; discriminate) eq_refl)
      as [Hfire _].
    destruct (Hfire (mkHook "abc" "" 1) eq_refl eq_refl ltac:(vm_compute; lia))
      as (_ & Hcalls & Hfinal & _).
    split; [exact Hcalls|]. rewrite Hfinal. reflexivity.
  - destruct (process_plain_hook_fires_or_waits default_config (key "a")
                abc_abd_console
                eq_refl ltac:(vm_compute; discriminate) eq_refl)
      as (_ & Hwait & _).
    destruct (Hwait ltac:(vm_compute; lia)) as (_ & Hcalls & Hfinal & _).
    split; [exact Hcalls|]. rewrite Hfinal. reflexivity.
  - destruct (process_plain_hook_fires_or_waits default_config (key "a")
                abc_console
                eq_refl ltac:(vm_compute; discriminate) eq_refl)
      as (_ & _ & Hpartial).
    destruct (Hpartial (mkHook "abc" "" 1) eq_refl ltac:(vm_compute; lia))
      as (_ & Hcalls & Hfinal & _).
    split; [exact Hcalls|]. rewrite Hfinal. reflexivity.
Defined.

(** C1 (as amended): once a character is stored, if a single candidate
    remains, its name holds the wildcard marker and the input is at least
    as long as the whole name (marker included), the hook is called exactly
    when the stored character is the terminator; the argument is then the
    input without the terminator, from the offset of the marker in the name
    on, and the input is reset.  With any other character nothing is called
    and the input is kept. *)
Theorem process_wildcard_hook_waits_for_terminator
  (cfg : Config) (w : World) (st : DiagTask) (h : hookEntry_t)
  (argIdx : nat) :
  mGetchar st = true -> (0 <= getch w)%Z ->
  reaches_store cfg w st (char_of_int (normalize (getch w))) = true ->
  privFindHooks (mHooks st)
    (store_at_end (mCurrentValidInput st)
       (char_of_int (normalize (getch w)))) = [h] ->
  strchr (name h) SPECIAL_KEYWORD_WILDCARD = Some argIdx ->
  strlen (name h)
  <= strlen (store_at_end (mCurrentValidInput st)
               (char_of_int (normalize (getch w)))) ->
  let c := normalize (getch w) in
  let typed := mCurrentValidInput st in
  let r := process cfg w st in
  argIdx = staticLength (name h)
  /\ (char_of_int c = LF ->
      argIdx <= String.length typed
      /\ trace r
         = echo c
           ++ [Putchar LF;
               Call (hook h)
                    (substring argIdx (String.length typed - argIdx) typed)]
      /\ calls (trace r)
         = [(hook h, substring argIdx (String.length typed - argIdx) typed)]
      /\ final r = reset_input st /\ ctl r = Returns)
  /\ (char_of_int c <> LF ->
      trace r = echo c /\ calls (trace r) = []
      /\ final r = set_input st (store_at_end typed (char_of_int c))
      /\ ctl r = Returns).
Proof.
  intros Hg Hc Hs Hh Hw Hl. cbv zeta.
  rewrite (process_pending _ _ _ Hg Hc), (process_char_store _ _ _ _ Hs).
  rewrite (accumulate_wildcard _ _ h argIdx Hh Hl Hw).
  split; [|split].
  - pose proof (strchr_staticLength (name h)) as E. now rewrite Hw in E.
  - intros E. rewrite E, from_offset_substring. cbn [final trace ctl].
    rewrite calls_app, calls_echo. repeat split; try reflexivity.
    apply strchr_lt in Hw. rewrite E, strlen_store_at_end in Hl.
    simpl in Hl. unfold strlen in Hl. lia.
  - intros E. apply Ascii.eqb_neq in E. rewrite E. cbn [final trace ctl].
    rewrite app_nil_r, calls_echo. auto.
Qed.

(** ["cmd *"] after ["cmd foo"]: the terminator calls the hook with
    ["foo"], another character is added to the input. *)
Lemma process_wildcard_hook_waits_for_terminator_witness :
  calls (trace (process default_config (key LF) cmd_typed_foo))
  = [(7, "foo"%string)]
  /\ mCurrentValidInput (final (process default_config (key LF) cmd_typed_foo))
     = EmptyString
  /\ calls (trace (process default_config (key "x") cmd_typed_foo)) = []
  /\ mCurrentValidInput
       (final (process default_config (key "x") cmd_typed_foo))
     = "cmd foox"%string.
Proof.
  destruct (process_wildcard_hook_waits_for_terminator default_config
              (key LF) cmd_typed_foo (mkHook "cmd *" "" 7) 4
              eq_refl ltac:(vm_compute; discriminate) eq_refl eq_refl eq_refl
              ltac:(vm_compute; lia))
    as (_ & Hfire & _).
  destruct (Hfire eq_refl) as (_ & _ & Hcalls & Hfinal & _).
  destruct (process_wildcard_hook_waits_for_terminator default_config
              (key "x") cmd_typed_foo (mkHook "cmd *" "" 7) 4
              eq_refl ltac:(vm_compute; discriminate) eq_refl eq_refl eq_refl
              ltac:(vm_compute; lia))
    as (_ & _ & Hwait).
  destruct (Hwait ltac:(vm_compute; discriminate)) as (_ & Hc2 & Hf2 & _).
  split; [exact Hcalls|]. split; [rewrite Hfinal; reflexivity|].
  split; [exact Hc2|]. rewrite Hf2. reflexivity.
Defined.

(** C1 as first stated fails when the input has reached the static length
    but not the length of the whole name: with the hook ["a*bc"] and the
    input ["ax"], the terminator is stored, the hook is the single
    candidate, the input is longer than the static length 1, and yet no
    hook is called and the input is kept. *)
Lemma wildcard_static_length_counterexample :
  mGetchar mid_wildcard_typed_ax = true
  /\ mCurrentValidInput mid_wildcard_typed_ax = "ax"%string
  /\ char_of_int (normalize (getch (key LF))) = LF
  /\ reaches_store default_config (key LF) mid_wildcard_typed_ax LF = true
  /\ privFindHooks (mHooks mid_wildcard_typed_ax)
       (store_at_end "ax" LF) = [mkHook "a*bc" "" 7]
  /\ has_wildcard "a*bc" = true
  /\ staticLength "a*bc" <= String.length (store_at_end "ax" LF)
  /\ calls (trace (process default_config (key LF) mid_wildcard_typed_ax))
     = []
  /\ mCurrentValidInput
       (final (process default_config (key LF) mid_wildcard_typed_ax))
     = store_at_end "ax" LF.
Proof.
  repeat split; try reflexivity.
  vm_compute. lia.
Qed.

(** ** Overflow and unmatched input *)

Lemma process_char_full (cfg : Config) (w : World) (st : DiagTask) (c : Z) :
  strlen (mCurrentValidInput st) = DIAGTASK_MAX_HOOK_INPUT_LEN cfg ->
  process_char cfg w st c = mkRun (reset_input st) [] Returns.
Proof.
  intros H. unfold process_char. rewrite H, Nat.eqb_refl. reflexivity.
Qed.

Lemma accumulate_unmatched (st : DiagTask) (len : nat) (c : ascii) :
  privFindHooks (mHooks st) (store_at_end (mCurrentValidInput st) c) = [] ->
  accumulate st len c = mkRun (reset_input st) [] Returns.
Proof.
  unfold accumulate; simpl. intros ->. reflexivity.
Qed.

(** C7: when the input is at its capacity, the next character resets it
    and nothing else happens: no hook is called and the call returns
    normally; likewise a stored character that leaves no candidate resets
    the input. *)
Theorem process_overflow_and_mismatch_reset
  (cfg : Config) (w : World) (st : DiagTask) :
  mGetchar st = true -> (0 <= getch w)%Z ->
  let c := normalize (getch w) in
  let r := process cfg w st in
  (strlen (mCurrentValidInput st) = DIAGTASK_MAX_HOOK_INPUT_LEN cfg ->
   mCurrentValidInput (final r) = EmptyString
   /\ final r = reset_input st
   /\ trace r = echo c /\ calls (trace r) = [] /\ ctl r = Returns)
  /\ (reaches_store cfg w st (char_of_int c) = true ->
      privFindHooks (mHooks st)
        (store_at_end (mCurrentValidInput st) (char_of_int c)) = [] ->
      mCurrentValidInput (final r) = EmptyString
      /\ final r = reset_input st
      /\ trace r = echo c /\ calls (trace r) = [] /\ ctl r = Returns).
Proof.
  intros Hg Hc. cbv zeta. rewrite (process_pending _ _ _ Hg Hc). split.
  - intros Hfull. rewrite (process_char_full _ _ _ _ Hfull).
    cbn [final trace ctl]. rewrite app_nil_r, calls_echo. auto.
  - intros Hs Hnone.
    rewrite (process_char_store _ _ _ _ Hs), (accumulate_unmatched _ _ _ Hnone).
    cbn [final trace ctl]. rewrite app_nil_r, calls_echo. auto.
Qed.

(** A thirty-first character and an unmatched first character both leave
    an empty input and call nothing. *)
Lemma process_overflow_and_mismatch_reset_witness :
  strlen (mCurrentValidInput cmd_typed_full) = 30
  /\ mCurrentValidInput (final (process default_config (key "x") cmd_typed_full))
     = EmptyString
  /\ calls (trace (process default_config (key "x") cmd_typed_full)) = []
  /\ mCurrentValidInput (final (process default_config (key "x") abc_abd_console))
     = EmptyString
  /\ calls (trace (process default_config (key "x") abc_abd_console)) = [].
Proof.
  destruct (process_overflow_and_mismatch_reset default_config (key "x")
              cmd_typed_full eq_refl ltac:(vm_compute; discriminate))
    as [Hfull _].
  destruct (Hfull eq_refl) as (Hin & _ & _ & Hcalls & _).
  destruct (process_overflow_and_mismatch_reset default_config (key "x")
              abc_abd_console eq_refl ltac:(vm_compute; discriminate))
    as [_ Hnone].
  destruct (Hnone eq_refl eq_refl) as (Hin2 & _ & _ & Hcalls2 & _).
  repeat split; assumption || reflexivity.
Defined.

(** ** The invariant of the input buffer *)

Lemma privFindHooks_app (hooks more : diagtask_vector) (prefix : string) :
  privFindHooks (hooks ++ more) prefix
  = privFindHooks hooks prefix ++ privFindHooks more prefix.
Proof. rewrite !privFindHooks_filter. apply filter_app. Qed.

Lemma special_keeps (cfg : Config) (w : World) (st : DiagTask) (c : ascii) :
  mHooks (snd (fst (privCheckAndProcessSpecialChars cfg w st c))) = mHooks st
  /\ (mCurrentValidInput (snd (fst (privCheckAndProcessSpecialChars cfg w st c)))
      = EmptyString
      \/ mCurrentValidInput
           (snd (fst (privCheckAndProcessSpecialChars cfg w st c)))
         = mCurrentValidInput st).
Proof.
  unfold privCheckAndProcessSpecialChars.
  repeat match goal with
         | |- context [if ?b then _ else _] => destruct b
         end; simpl; auto.
Qed.

Lemma tab_keeps (cfg : Config) (st : DiagTask) (c : ascii) :
  mHooks (snd (fst (processTabCompetion cfg st c))) = mHooks st
  /\ (mCurrentValidInput (snd (fst (processTabCompetion cfg st c)))
      = EmptyString
      \/ mCurrentValidInput (snd (fst (processTabCompetion cfg st c)))
         = mCurrentValidInput st).
Proof.
  unfold processTabCompetion.
  destruct (_ && _ && _); simpl; auto.
  destruct (mCurrentValidInput st) eqn:E; simpl; auto.
  destruct (privFindHooks _ _) as [|h [|h' l]]; simpl; auto.
Qed.

Lemma accumulate_keeps (st : DiagTask) (len : nat) (c : ascii) :
  mHooks (final (accumulate st len c)) = mHooks st
  /\ (mCurrentValidInput (final (accumulate st len c)) = EmptyString
      \/ (mCurrentValidInput (final (accumulate st len c))
          = store_at_end (mCurrentValidInput st) c
          /\ privFindHooks (mHooks st) (store_at_end (mCurrentValidInput st) c)
             <> [])).
Proof.
  unfold accumulate; simpl.
  destruct (privFindHooks _ _) as [|h [|h' l]] eqn:E;
    [ | destruct (_ <=? _);
        [destruct (strchr _ _); [destruct (Ascii.eqb _ _)|]|] | ];
    simpl; (split; [reflexivity|]);
    first [left; reflexivity | right; split; [reflexivity|discriminate]].
Qed.

(** What one loop body leaves in the buffer: nothing, what was there, or
    what was there with the character added while a hook still matches. *)
Lemma process_char_keeps (cfg : Config) (w : World) (st : DiagTask) (c : Z) :
  mHooks (final (process_char cfg w st c)) = mHooks st
  /\ (mCurrentValidInput (final (process_char cfg w st c)) = EmptyString
      \/ mCurrentValidInput (final (process_char cfg w st c))
         = mCurrentValidInput st
      \/ (strlen (mCurrentValidInput st) <> DIAGTASK_MAX_HOOK_INPUT_LEN cfg
          /\ mCurrentValidInput (final (process_char cfg w st c))
             = store_at_end (mCurrentValidInput st) (char_of_int c)
          /\ privFindHooks (mHooks st)
               (store_at_end (mCurrentValidInput st) (char_of_int c)) <> [])).
Proof.
  unfold process_char.
  destruct (Nat.eqb_spec (strlen (mCurrentValidInput st))
              (DIAGTASK_MAX_HOOK_INPUT_LEN cfg)) as [|Hne]; [simpl; auto|].
  assert (Hsp : exists s st1 out1,
    match mCurrentValidInput st with
    | EmptyString => privCheckAndProcessSpecialChars cfg w st (char_of_int c)
    | String _ _ => (NotHandled, st, [])
    end = (s, st1, out1)
    /\ mHooks st1 = mHooks st
    /\ (mCurrentValidInput st1 = EmptyString
        \/ mCurrentValidInput st1 = mCurrentValidInput st)
    /\ (s = NotHandled -> st1 = st)).
  { destruct (mCurrentValidInput st) eqn:E.
    - pose proof (special_keeps cfg w st (char_of_int c)) as [K1 K2].
      pose proof (special_not_handled cfg w st (char_of_int c)) as K3.
      destruct (privCheckAndProcessSpecialChars cfg w st (char_of_int c))
        as [[s st1] out1]; simpl in *.
      exists s, st1, out1. rewrite E in K2. repeat split; auto.
      intros ->. specialize (K3 eq_refl). congruence.
    - exists NotHandled, st, []. rewrite E. auto. }
  destruct Hsp as (s & st1 & out1 & -> & K1 & K2 & K3).
  destruct s; simpl;
    try (split; [exact K1|destruct K2 as [K2|K2]; auto]).
  rewrite (K3 eq_refl).
  pose proof (tab_keeps cfg st (char_of_int c)) as [T1 T2].
  pose proof (tab_not_taken cfg st (char_of_int c)) as T3.
  destruct (processTabCompetion cfg st (char_of_int c)) as [[tabbed st2] out2];
    simpl in *.
  destruct tabbed; simpl;
    [split; [exact T1|destruct T2 as [T2|T2]; auto]|].
  specialize (T3 eq_refl). injection T3 as -> ->.
  pose proof (accumulate_keeps st (strlen (mCurrentValidInput st))
                (char_of_int c)) as [A1 A2].
  split; [exact A1|]. destruct A2 as [A2|[A2 A3]]; auto.
Qed.

Lemma process_keeps (cfg : Config) (w : World) (st : DiagTask) :
  mHooks (final (process cfg w st)) = mHooks st
  /\ (mCurrentValidInput (final (process cfg w st)) = EmptyString
      \/ mCurrentValidInput (final (process cfg w st))
         = mCurrentValidInput st
      \/ (strlen (mCurrentValidInput st) <> DIAGTASK_MAX_HOOK_INPUT_LEN cfg
          /\ strlen (mCurrentValidInput (final (process cfg w st)))
             <= S (strlen (mCurrentValidInput st))
          /\ privFindHooks (mHooks st)
               (mCurrentValidInput (final (process cfg w st))) <> [])).
Proof.
  unfold process.
  destruct (mGetchar st); simpl; auto.
  destruct (getch w <? 0)%Z; simpl; auto.
  pose proof (process_char_keeps cfg w st (normalize (getch w))) as [K1 K2].
  split; [exact K1|].
  destruct K2 as [K|[K|(K & -> & K')]]; auto.
  right; right. repeat split; auto.
  rewrite strlen_store_at_end. destruct (Ascii.eqb _ _); lia.
Qed.

Lemma process_buffer_ok (cfg : Config) (w : World) (st : DiagTask) :
  buffer_ok cfg st -> buffer_ok cfg (final (process cfg w st)).
Proof.
  intros [Hlen Hmatch]. unfold buffer_ok.
  pose proof (process_keeps cfg w st) as [K1 K2]. rewrite K1.
  destruct K2 as [->|[->|(K & Kl & Km)]].
  - simpl. split; [lia|auto].
  - auto.
  - split; [lia|auto].
Qed.

Lemma registerHook_buffer_ok (cfg : Config) (st : DiagTask)
  (n : option string) (f : option hook_fn) (d : option string) :
  buffer_ok cfg st -> buffer_ok cfg (snd (registerHook cfg st n f d)).
Proof.
  intros [Hlen Hmatch]. unfold registerHook, buffer_ok.
  destruct n as [nm|], f as [fn|]; cbn [snd]; try (split; assumption).
  destruct (_ || _); cbn [snd mHooks mCurrentValidInput];
    [split; assumption|].
  split; [assumption|].
  destruct Hmatch as [E|Hm]; [auto|right].
  rewrite privFindHooks_app. intros E. apply app_eq_nil in E as [E _]. auto.
Qed.

Lemma enableFeatures_buffer_ok (cfg : Config) (st : DiagTask) (m : N) :
  buffer_ok cfg st -> buffer_ok cfg (enableFeatures st m).
Proof. intros H. exact H. Qed.

(** C8: the bound and the consistency of the input buffer are kept by
    every call of [process] and every call of [registerHook]. *)
Theorem buffer_ok_preserved (cfg : Config) (st : DiagTask) :
  buffer_ok cfg st ->
  (forall w, buffer_ok cfg (final (process cfg w st)))
  /\ (forall n f d, buffer_ok cfg (snd (registerHook cfg st n f d))).
Proof.
  intros H. split.
  - intros w. now apply process_buffer_ok.
  - intros n f d. now apply registerHook_buffer_ok.
Qed.

Lemma buffer_ok_new (cfg : Config) (g u r : bool) :
  buffer_ok cfg (DiagTask_new g u r).
Proof. split; simpl; [lia|auto]. Qed.

(** The invariant holds in every state a console can reach from its
    constructor through the public operations. *)
Lemma buffer_ok_reachable (cfg : Config) (g u r : bool)
  (ops : list operation) :
  buffer_ok cfg (run_operations cfg (DiagTask_new g u r) ops).
Proof.
  unfold run_operations.
  generalize (buffer_ok_new cfg g u r).
  generalize (DiagTask_new g u r) as st.
  induction ops as [|o ops IH]; intros st H; simpl; [exact H|].
  apply IH. destruct o; simpl.
  - now apply process_buffer_ok.
  - now apply registerHook_buffer_ok.
  - now apply enableFeatures_buffer_ok.
Qed.

(** The invariant before and after a call of each kind. *)
Lemma buffer_ok_preserved_witness :
  buffer_ok default_config abc_abd_typed_ab
  /\ buffer_ok default_config
       (final (process default_config (key "x") abc_abd_typed_ab))
  /\ buffer_ok default_config
       (snd (registerHook default_config abc_abd_typed_ab
               (Some "zz"%string) (Some 3) None)).
Proof.
  assert (H : buffer_ok default_config abc_abd_typed_ab).
  { split; [vm_compute; lia|right; vm_compute; discriminate]. }
  destruct (buffer_ok_preserved default_config abc_abd_typed_ab H) as [Hp Hr].
  split; [exact H|]. split; [apply Hp|apply Hr].
Defined.

(** ** Special commands *)

(** The store-and-match step prints nothing with [printf], never reboots,
    always returns and leaves the separator counter alone. *)
Lemma accumulate_plain_effects (st : DiagTask) (len : nat) (c : ascii) :
  (forall e, In e (trace (accumulate st len c)) ->
             e = Putchar LF \/ exists f input, e = Call f input)
  /\ ctl (accumulate st len c) = Returns
  /\ count (final (accumulate st len c)) = count st.
Proof.
  unfold accumulate; simpl.
  destruct (privFindHooks _ _) as [|h [|h' l]];
    [ | destruct (_ <=? _);
        [destruct (strchr _ _); [destruct (Ascii.eqb _ _)|]|] | ];
    simpl; (split; [|split; reflexivity]); intros e He;
    repeat (destruct He as [<-|He]; eauto); contradiction.
Qed.

Lemma echo_only_putchar (c : Z) (e : event) :
  In e (echo c) -> e = Putchar (char_of_int c).
Proof.
  unfold echo. destruct (_ && _ && _ && _); simpl; [|contradiction].
  intros [<-|[]]. reflexivity.
Qed.

Lemma no_effect_of_plain_trace (st : DiagTask) (r : Run) :
  (forall e, In e (trace r) ->
             (exists c, e = Putchar c) \/ exists f input, e = Call f input) ->
  ctl r = Returns -> count (final r) = count st ->
  ~ special_effect st r.
Proof.
  intros Ht Hc Hn [[text H]|[H|[H|H]]].
  - destruct (Ht _ H) as [[c E]|(f & a & E)]; discriminate.
  - destruct (Ht _ H) as [[c E]|(f & a & E)]; discriminate.
  - congruence.
  - contradiction.
Qed.

(** A special command only runs for the keyword whose feature bit is set. *)
Lemma special_taken_feature (cfg : Config) (w : World) (st : DiagTask)
  (c : ascii) :
  fst (fst (privCheckAndProcessSpecialChars cfg w st c)) <> NotHandled ->
  is_special_keyword c = true /\ has_feature st (feature_of c) = true.
Proof.
  unfold privCheckAndProcessSpecialChars.
  repeat match goal with
         | |- context [if ?b then _ else _] => destruct b eqn:?
         end; simpl; try congruence; intros _;
  repeat match goal with
         | H : (_ && _)%bool = true |- _ => apply andb_prop in H as [? ?]
         | H : Ascii.eqb _ _ = true |- _ => apply Ascii.eqb_eq in H; subst c
         end; split; try reflexivity; assumption.
Qed.

Lemma special_keyword_not_tab (c : ascii) :
  is_special_keyword c = true -> Ascii.eqb c SPECIAL_KEYWORD_TAB = false.
Proof.
  unfold is_special_keyword. intros H.
  repeat (apply orb_prop in H as [H|H]);
    apply Ascii.eqb_eq in H; subst c; reflexivity.
Qed.

Lemma special_keyword_not_NUL (c : ascii) :
  is_special_keyword c = true -> Ascii.eqb c NUL = false.
Proof.
  unfold is_special_keyword. intros H.
  repeat (apply orb_prop in H as [H|H]);
    apply Ascii.eqb_eq in H; subst c; reflexivity.
Qed.

Lemma tab_declines_other (cfg : Config) (st : DiagTask) (c : ascii) :
  Ascii.eqb c SPECIAL_KEYWORD_TAB = false ->
  processTabCompetion cfg st c = (false, st, []).
Proof.
  intros H. unfold processTabCompetion. rewrite H, !andb_false_r. reflexivity.
Qed.

(** Past the capacity test, a character that is neither taken as a special
    command nor the tab keyword is stored and matched. *)
Lemma process_char_ordinary (cfg : Config) (w : World) (st : DiagTask)
  (c : Z) :
  strlen (mCurrentValidInput st) <> DIAGTASK_MAX_HOOK_INPUT_LEN cfg ->
  special_declines cfg w st (char_of_int c) = true ->
  Ascii.eqb (char_of_int c) SPECIAL_KEYWORD_TAB = false ->
  process_char cfg w st c
  = accumulate st (strlen (mCurrentValidInput st)) (char_of_int c).
Proof.
  intros Hne Hs Ht. apply process_char_store.
  unfold reaches_store, tab_declines.
  rewrite Hs, (tab_declines_other _ _ _ Ht).
  apply Nat.eqb_neq in Hne. rewrite Hne. reflexivity.
Qed.

(** C4 (as amended): a special keyword has the effect of a special command
    only when the input is empty and its feature bit is set; with a
    non-empty input no special command runs, and below the capacity the
    keyword is added to the input and matched against the hook names like
    any other character. *)
Theorem special_keyword_only_on_empty_input
  (cfg : Config) (w : World) (st : DiagTask) :
  mGetchar st = true -> (0 <= getch w)%Z ->
  is_special_keyword (char_of_int (normalize (getch w))) = true ->
  let c := normalize (getch w) in
  let typed := mCurrentValidInput st in
  let r := process cfg w st in
  (special_effect st r ->
   typed = EmptyString
   /\ has_feature st (feature_of (char_of_int c)) = true)
  /\ (typed <> EmptyString -> ~ special_effect st r)
  /\ (typed <> EmptyString ->
      strlen typed <> DIAGTASK_MAX_HOOK_INPUT_LEN cfg ->
      store_at_end typed (char_of_int c)
      = (typed ++ String (char_of_int c) EmptyString)%string
      /\ final r = final (accumulate st (strlen typed) (char_of_int c))
      /\ trace r
         = echo c ++ trace (accumulate st (strlen typed) (char_of_int c))
      /\ ctl r = Returns).
Proof.
  intros Hg Hc Hk. cbv zeta.
  set (c := normalize (getch w)) in *.
  assert (Hplain : forall r0 : Run,
    (forall e, In e (trace r0) ->
               e = Putchar LF \/ exists f input, e = Call f input) ->
    ctl r0 = Returns -> count (final r0) = count st ->
    ~ special_effect st (mkRun (final r0) (echo c ++ trace r0) (ctl r0))).
  { intros r0 Ht Hr Hn. apply no_effect_of_plain_trace; cbn [final trace ctl];
      auto.
    intros e He. apply in_app_or in He as [He|He].
    - left. eexists. apply (echo_only_putchar _ _ He).
    - destruct (Ht _ He) as [->|?]; eauto. }
  assert (Hacc :
    ~ special_effect st
        (mkRun (final (accumulate st (strlen (mCurrentValidInput st))
                         (char_of_int c)))
               (echo c ++ trace (accumulate st (strlen (mCurrentValidInput st))
                                   (char_of_int c)))
               (ctl (accumulate st (strlen (mCurrentValidInput st))
                       (char_of_int c))))).
  { pose proof (accumulate_plain_effects st (strlen (mCurrentValidInput st))
                  (char_of_int c)) as (A1 & A2 & A3).
    now apply Hplain. }
  assert (Hfull :
    strlen (mCurrentValidInput st) = DIAGTASK_MAX_HOOK_INPUT_LEN cfg ->
    ~ special_effect st (process cfg w st)).
  { intros Hf. rewrite (process_pending _ _ _ Hg Hc).
    fold c. rewrite (process_char_full _ _ _ _ Hf).
    apply (Hplain (mkRun (reset_input st) [] Returns)); simpl; auto.
    intros e []. }
  assert (Hnonempty :
    mCurrentValidInput st <> EmptyString -> ~ special_effect st (process cfg w st)).
  { intros Hne.
    destruct (Nat.eq_dec (strlen (mCurrentValidInput st))
                (DIAGTASK_MAX_HOOK_INPUT_LEN cfg)) as [Hf|Hnf]; [auto|].
    rewrite (process_pending _ _ _ Hg Hc). fold c.
    rewrite (process_char_ordinary _ _ _ _ Hnf);
      [exact Hacc| |now apply special_keyword_not_tab].
    unfold special_declines. now destruct (mCurrentValidInput st). }
  split; [|split].
  - intros He.
    destruct (string_dec (mCurrentValidInput st) EmptyString) as [E|Hne];
      [|exfalso; exact (Hnonempty Hne He)].
    split; [exact E|].
    destruct (Nat.eq_dec (strlen (mCurrentValidInput st))
                (DIAGTASK_MAX_HOOK_INPUT_LEN cfg)) as [Hf|Hnf];
      [exfalso; exact (Hfull Hf He)|].
    destruct (special_declines cfg w st (char_of_int c)) eqn:Hs.
    + exfalso. revert He. rewrite (process_pending _ _ _ Hg Hc). fold c.
      rewrite (process_char_ordinary _ _ _ _ Hnf Hs);
        [exact Hacc|now apply special_keyword_not_tab].
    + apply special_taken_feature with (cfg := cfg) (w := w).
      unfold special_declines in Hs. rewrite E in Hs.
      destruct (fst (fst (privCheckAndProcessSpecialChars cfg w st
                            (char_of_int c)))); congruence.
  - exact Hnonempty.
  - intros Hne Hnf. split.
    + unfold store_at_end. now rewrite (special_keyword_not_NUL _ Hk).
    + rewrite (process_pending _ _ _ Hg Hc). fold c.
      rewrite (process_char_ordinary _ _ _ _ Hnf);
        [| |now apply special_keyword_not_tab].
      * cbn [final trace ctl]. repeat split.
        apply (accumulate_plain_effects st _ _).
      * unfold special_declines. now destruct (mCurrentValidInput st).
Qed.

(** The help keyword inside the hook name ["a?b"] is added to the input. *)
Lemma special_keyword_only_on_empty_input_witness :
  mCurrentValidInput help_in_name_typed_a = "a"%string
  /\ ~ special_effect help_in_name_typed_a
         (process default_config (key "?") help_in_name_typed_a)
  /\ mCurrentValidInput
       (final (process default_config (key "?") help_in_name_typed_a))
     = "a?"%string.
Proof.
  destruct (special_keyword_only_on_empty_input default_config (key "?")
              help_in_name_typed_a
              eq_refl ltac:(vm_compute; discriminate) eq_refl)
    as (_ & Hquiet & Hstore).
  destruct (Hstore ltac:(vm_compute; discriminate) ltac:(vm_compute; lia))
    as (_ & Hfinal & _).
  split; [reflexivity|]. split.
  - apply Hquiet. vm_compute. discriminate.
  - rewrite Hfinal. reflexivity.
Defined.

(** C4 as first stated fails at the capacity of the input: the buffer is
    not empty, the help keyword arrives, and it is not added to the input
    (the input is reset), although the input with the keyword added would
    still match the hook ["cmd *"] and would have been kept. *)
Lemma special_keyword_full_input_counterexample :
  mCurrentValidInput cmd_typed_full = "cmd abcdefghijklmnopqrstuvwxyz"%string
  /\ is_special_keyword (char_of_int (normalize (getch (key "?")))) = true
  /\ mCurrentValidInput
       (final (process default_config (key "?") cmd_typed_full))
     = EmptyString
  /\ privFindHooks (mHooks cmd_typed_full)
       "cmd abcdefghijklmnopqrstuvwxyz?" = [mkHook "cmd *" "" 7]
  /\ mCurrentValidInput (final (accumulate cmd_typed_full 30 "?"))
     = "cmd abcdefghijklmnopqrstuvwxyz?"%string.
Proof. repeat split; reflexivity. Qed.

(** ** Tab completion *)

Lemma special_declines_tab (cfg : Config) (w : World) (st : DiagTask) :
  special_declines cfg w st SPECIAL_KEYWORD_TAB = true.
Proof.
  unfold special_declines, privCheckAndProcessSpecialChars.
  destruct (mCurrentValidInput st); [|reflexivity].
  simpl. rewrite !andb_false_r. reflexivity.
Qed.

(** Below the capacity, the tab keyword is answered by
    [processTabCompetion] alone. *)
Lemma process_char_tab (cfg : Config) (w : World) (st : DiagTask) (c : Z) :
  strlen (mCurrentValidInput st) <> DIAGTASK_MAX_HOOK_INPUT_LEN cfg ->
  DIAGTASK_ENABLE_TAB_COMPLETION cfg = true ->
  has_feature st feature_TabCompletion = true ->
  char_of_int c = SPECIAL_KEYWORD_TAB ->
  process_char cfg w st c
  = mkRun (snd (fst (processTabCompetion cfg st SPECIAL_KEYWORD_TAB)))
          (snd (processTabCompetion cfg st SPECIAL_KEYWORD_TAB))
          Returns
  /\ fst (fst (processTabCompetion cfg st SPECIAL_KEYWORD_TAB)) = true.
Proof.
  intros Hnf He Hf Hc. unfold process_char. rewrite Hc.
  apply Nat.eqb_neq in Hnf. rewrite Hnf.
  pose proof (special_declines_tab cfg w st) as Hs.
  unfold special_declines in Hs.
  assert (Hsp :
    match mCurrentValidInput st with
    | EmptyString =>
        privCheckAndProcessSpecialChars cfg w st SPECIAL_KEYWORD_TAB
    | String _ _ => (NotHandled, st, [])
    end = (NotHandled, st, [])).
  { destruct (mCurrentValidInput st); [|reflexivity].
    apply special_not_handled.
    destruct (fst (fst (privCheckAndProcessSpecialChars cfg w st
                          SPECIAL_KEYWORD_TAB))); congruence. }
  rewrite Hsp.
  assert (Ht : fst (fst (processTabCompetion cfg st SPECIAL_KEYWORD_TAB))
               = true).
  { unfold processTabCompetion. rewrite He, Hf. simpl.
    destruct (mCurrentValidInput st); [reflexivity|].
    destruct (privFindHooks _ _) as [|h [|h' l]]; reflexivity. }
  split; [|exact Ht].
  destruct (processTabCompetion cfg st SPECIAL_KEYWORD_TAB)
    as [[tabbed st2] out2]; simpl in *. subst tabbed. reflexivity.
Qed.

Lemma calls_tab_candidates (cfg : Config) (typed : string)
  (l : diagtask_vector) :
  calls (map (tab_candidate cfg typed) l) = [].
Proof.
  induction l as [|h l IH]; simpl; [reflexivity|].
  unfold tab_candidate at 1. destruct (_ <=? _); exact IH.
Qed.

(** C5 (as amended): with tab completion enabled and the tab keyword
    received, the keyword is never added to the input.  At the capacity of
    the input, the input is reset and nothing else happens.  Below it the
    character is handed to the tab completion and processing stops: an
    empty input changes nothing; a single candidate is printed, called with
    the empty argument and the input is reset; with two or more candidates
    no hook is called and the input stays as it was. *)
Theorem tab_completion_hand_off (cfg : Config) (w : World) (st : DiagTask) :
  mGetchar st = true -> (0 <= getch w)%Z ->
  DIAGTASK_ENABLE_TAB_COMPLETION cfg = true ->
  has_feature st feature_TabCompletion = true ->
  char_of_int (normalize (getch w)) = SPECIAL_KEYWORD_TAB ->
  let c := normalize (getch w) in
  let typed := mCurrentValidInput st in
  let r := process cfg w st in
  (mCurrentValidInput (final r) = EmptyString
   \/ mCurrentValidInput (final r) = typed)
  /\ ctl r = Returns
  /\ (strlen typed = DIAGTASK_MAX_HOOK_INPUT_LEN cfg ->
      final r = reset_input st /\ trace r = echo c)
  /\ (strlen typed <> DIAGTASK_MAX_HOOK_INPUT_LEN cfg ->
      (final r = snd (fst (processTabCompetion cfg st SPECIAL_KEYWORD_TAB))
       /\ trace r
          = echo c ++ snd (processTabCompetion cfg st SPECIAL_KEYWORD_TAB))
      /\ (typed = EmptyString -> final r = st /\ trace r = echo c)
      /\ (forall h, typed <> EmptyString ->
                    privFindHooks (mHooks st) typed = [h] ->
                    trace r
                    = echo c ++ [Printf ("[" ++ name h ++ "]" ++ nl)%string;
                                 Call (hook h) EmptyString]
                    /\ calls (trace r) = [(hook h, EmptyString)]
                    /\ final r = reset_input st)
      /\ (2 <= List.length (privFindHooks (mHooks st) typed) ->
          calls (trace r) = [] /\ final r = st)).
Proof.
  intros Hg Hc He Hf Ht. cbv zeta.
  rewrite (process_pending _ _ _ Hg Hc).
  destruct (Nat.eq_dec (strlen (mCurrentValidInput st))
              (DIAGTASK_MAX_HOOK_INPUT_LEN cfg)) as [Hfull|Hnf].
  - rewrite (process_char_full _ _ _ _ Hfull). cbn [final trace ctl].
    rewrite app_nil_r.
    split; [left; reflexivity|]. split; [reflexivity|].
    split; [intros _; split; reflexivity|]. intros; contradiction.
  - destruct (process_char_tab cfg w st _ Hnf He Hf Ht) as [-> _].
    cbn [final trace ctl].
    pose proof (tab_keeps cfg st SPECIAL_KEYWORD_TAB) as [_ Hk].
    split; [exact Hk|]. split; [reflexivity|].
    split; [intros; contradiction|]. intros _.
    split; [split; reflexivity|].
    unfold processTabCompetion. rewrite He, Hf. cbn [andb Ascii.eqb].
    change (Ascii.eqb SPECIAL_KEYWORD_TAB SPECIAL_KEYWORD_TAB) with true.
    cbn iota.
    split; [|split].
    + intros ->. cbn [fst snd]. rewrite app_nil_r. auto.
    + intros h Hne Hone.
      destruct (mCurrentValidInput st) as [|x s] eqn:E; [contradiction|].
      rewrite Hone. cbn [fst snd]. rewrite calls_app, calls_echo. auto.
    + intros Hmany.
      destruct (mCurrentValidInput st) as [|x s] eqn:E.
      * cbn [fst snd]. rewrite app_nil_r, calls_echo. auto.
      * destruct (privFindHooks (mHooks st) (String x s)) as [|h [|h' l]];
          simpl in Hmany; try lia.
        cbn [fst snd]. rewrite calls_app, calls_echo. simpl calls.
        rewrite (calls_tab_candidates cfg (String x s) l).
        unfold tab_candidate. destruct (_ <=? _); auto.
Qed.

(** Tab after ["ab"]: one candidate is called, two are only listed. *)
Lemma tab_completion_hand_off_witness :
  calls (trace (process default_config (key SPECIAL_KEYWORD_TAB)
                  tab_one_typed_ab)) = [(1, EmptyString)]
  /\ mCurrentValidInput
       (final (process default_config (key SPECIAL_KEYWORD_TAB)
                 tab_one_typed_ab)) = EmptyString
  /\ calls (trace (process default_config (key SPECIAL_KEYWORD_TAB)
                     tab_two_typed_ab)) = []
  /\ mCurrentValidInput
       (final (process default_config (key SPECIAL_KEYWORD_TAB)
                 tab_two_typed_ab)) = "ab"%string.
Proof.
  destruct (tab_completion_hand_off default_config (key SPECIAL_KEYWORD_TAB)
              tab_one_typed_ab
              eq_refl ltac:(vm_compute; discriminate) eq_refl eq_refl eq_refl)
    as (_ & _ & _ & Hbelow).
  destruct (Hbelow ltac:(vm_compute; lia)) as (_ & _ & Hone & _).
  destruct (Hone (mkHook "abc" "" 1) ltac:(vm_compute; discriminate) eq_refl)
    as (_ & Hcalls & Hfinal).
  destruct (tab_completion_hand_off default_config (key SPECIAL_KEYWORD_TAB)
              tab_two_typed_ab
              eq_refl ltac:(vm_compute; discriminate) eq_refl eq_refl eq_refl)
    as (_ & _ & _ & Hbelow2).
  destruct (Hbelow2 ltac:(vm_compute; lia)) as (_ & _ & _ & Hmany).
  destruct (Hmany ltac:(vm_compute; lia)) as (Hcalls2 & Hfinal2).
  split; [exact Hcalls|]. split; [rewrite Hfinal; reflexivity|].
  split; [exact Hcalls2|]. rewrite Hfinal2. reflexivity.
Defined.

(** C5 as first stated fails at the capacity of the input: tab completion
    is enabled, the tab keyword arrives, the input is not empty and has a
    single candidate, yet the candidate is not called: the capacity test
    comes first and resets the input. *)
Lemma tab_full_input_counterexample :
  DIAGTASK_ENABLE_TAB_COMPLETION default_config = true
  /\ has_feature cmd_typed_full feature_TabCompletion = true
  /\ char_of_int (normalize (getch (key SPECIAL_KEYWORD_TAB)))
     = SPECIAL_KEYWORD_TAB
  /\ mCurrentValidInput cmd_typed_full
     = "cmd abcdefghijklmnopqrstuvwxyz"%string
  /\ privFindHooks (mHooks cmd_typed_full) (mCurrentValidInput cmd_typed_full)
     = [mkHook "cmd *" "" 7]
  /\ calls (snd (processTabCompetion default_config cmd_typed_full
                   SPECIAL_KEYWORD_TAB)) = [(7, EmptyString)]
  /\ calls (trace (process default_config (key SPECIAL_KEYWORD_TAB)
                     cmd_typed_full)) = []
  /\ trace (process default_config (key SPECIAL_KEYWORD_TAB) cmd_typed_full)
     = [].
Proof. repeat split; reflexivity. Qed.

(** ** Help *)

(** C9 (as amended): with help compiled in and its feature bit set, the
    help keyword on an empty input prints, after an empty line, one line
    for each special command compiled into the build, whatever the feature
    mask says about that command, then the name and description of every
    registered hook in registration order; the input is reset and the
    keyword is reported as handled. *)
Theorem help_lists_compiled_commands_and_hooks
  (cfg : Config) (w : World) (st : DiagTask) :
  mGetchar st = true -> (0 <= getch w)%Z ->
  DIAGTASK_ENABLE_HELP cfg = true ->
  has_feature st feature_Help = true ->
  mCurrentValidInput st = EmptyString ->
  DIAGTASK_MAX_HOOK_INPUT_LEN cfg <> 0 ->
  char_of_int (normalize (getch w)) = SPECIAL_KEYWORD_HELP ->
  let r := process cfg w st in
  fst (fst (privCheckAndProcessSpecialChars cfg w st SPECIAL_KEYWORD_HELP))
  = Handled
  /\ trace r
     = echo (normalize (getch w))
       ++ [Printf nl; Printf ("? - help" ++ nl)%string]
       ++ (if DIAGTASK_ENABLE_SEARCH cfg
           then [Printf ("/ - search" ++ nl)%string] else [])
       ++ (if DIAGTASK_ENABLE_SEPARATOR cfg
           then [Printf ("# - separator" ++ nl)%string] else [])
       ++ (if DIAGTASK_ENABLE_REBOOT cfg
           then [Printf ("! - reboot" ++ nl)%string] else [])
       ++ map (fun h => Printf (left_justify 20 (name h) ++ tab
                                ++ description h ++ nl)%string)
              (mHooks st)
  /\ final r = reset_input st
  /\ mCurrentValidInput (final r) = EmptyString
  /\ ctl r = Returns.
Proof.
  intros Hg Hc He Hf Hempty Hcap Hk. cbv zeta.
  rewrite (process_pending _ _ _ Hg Hc).
  unfold process_char. rewrite Hk, Hempty.
  destruct (Nat.eqb_spec (strlen EmptyString) (DIAGTASK_MAX_HOOK_INPUT_LEN cfg))
    as [E|_]; [simpl in E; congruence|].
  unfold privCheckAndProcessSpecialChars. rewrite He, Hf.
  cbn [andb]. change (Ascii.eqb SPECIAL_KEYWORD_HELP SPECIAL_KEYWORD_HELP)
    with true. cbn iota. cbn [fst snd final trace ctl].
  unfold privHelp. rewrite He.
  repeat split.
Qed.

(** The help text of the default build with one hook registered. *)
Lemma help_lists_compiled_commands_and_hooks_witness :
  trace (process default_config (key "?") help_only_console)
  = [Printf nl; Printf ("? - help" ++ nl)%string;
     Printf ("# - separator" ++ nl)%string;
     Printf ("! - reboot" ++ nl)%string;
     Printf ("abc                 " ++ tab ++ nl)%string]
  /\ mCurrentValidInput
       (final (process default_config (key "?") help_only_console))
     = EmptyString.
Proof.
  destruct (help_lists_compiled_commands_and_hooks default_config (key "?")
              help_only_console
              eq_refl ltac:(vm_compute; discriminate) eq_refl eq_refl eq_refl
              ltac:(vm_compute; discriminate) eq_refl)
    as (_ & Htrace & _ & Hin & _).
  split; [rewrite Htrace; reflexivity|exact Hin].
Defined.

(** C9 as first stated fails for the lines of the special commands: with
    only the help bit set (and no reboot function), the help text still
    has the lines of the separator and of the reboot command, which are not
    enabled: the separator keyword then does nothing. *)
Lemma help_lists_disabled_commands_counterexample :
  has_feature help_only_console feature_Help = true
  /\ has_feature help_only_console feature_Seperator = false
  /\ has_feature help_only_console feature_Reboot = false
  /\ mReboot help_only_console = false
  /\ In (Printf ("# - separator" ++ nl)%string)
        (trace (process default_config (key "?") help_only_console))
  /\ In (Printf ("! - reboot" ++ nl)%string)
        (trace (process default_config (key "?") help_only_console))
  /\ trace (process default_config (key "#") help_only_console) = []
  /\ trace (process default_config (key "!") help_only_console) = [].
Proof.
  repeat split; try reflexivity.
  - right; right; left. reflexivity.
  - right; right; right; left. reflexivity.
Qed.

(** ** The registry *)

Lemma substring_whole (s : string) (n : nat) :
  String.length s <= n -> substring 0 n s = s.
Proof.
  intros H. rewrite <- strncpy0_substring. now apply strncpy0_short.
Qed.

(** C6: [registerHook] answers false and changes nothing when the name or
    the hook is null or the length of the name is outside
    [DIAGTASK_MIN_HOOKNAME_LEN .. DIAGTASK_MAX_HOOKNAME_LEN]; otherwise it
    answers true and adds one entry at the end of the registry, with the
    name and the description cut to their capacities (the name is then
    whole) and nothing else changed. *)
Theorem registerHook_contract (cfg : Config) (st : DiagTask)
  (name_arg : option string) (hook_arg : option hook_fn)
  (description_arg : option string) :
  (name_arg = None \/ hook_arg = None
   \/ (exists nm, name_arg = Some nm
                  /\ (strlen nm < DIAGTASK_MIN_HOOKNAME_LEN cfg
                      \/ DIAGTASK_MAX_HOOKNAME_LEN cfg < strlen nm)) ->
   registerHook cfg st name_arg hook_arg description_arg = (false, st))
  /\ (forall nm f,
        name_arg = Some nm -> hook_arg = Some f ->
        DIAGTASK_MIN_HOOKNAME_LEN cfg <= strlen nm ->
        strlen nm <= DIAGTASK_MAX_HOOKNAME_LEN cfg ->
        substring 0 (DIAGTASK_MAX_HOOKNAME_LEN cfg) nm = nm
        /\ registerHook cfg st name_arg hook_arg description_arg
           = (true,
              {| mHooks :=
                   mHooks st
                   ++ [ {| name := nm;
                           description :=
                             match description_arg with
                             | Some d =>
                                 substring 0 (DIAGTASK_HOOKDESC_LEN cfg) d
                             | None => EmptyString
                             end;
                           hook := f |} ];
                 mFeatures := mFeatures st;
                 mCurrentValidInput := mCurrentValidInput st;
                 mGetchar := mGetchar st; mUptime := mUptime st;
                 mReboot := mReboot st; count := count st |})).
Proof.
  split.
  - intros [->|[->|(nm & -> & Hlen)]]; unfold registerHook.
    + reflexivity.
    + now destruct name_arg.
    + destruct hook_arg; [|reflexivity].
      destruct (Nat.ltb_spec (strlen nm) (DIAGTASK_MIN_HOOKNAME_LEN cfg));
        [reflexivity|].
      destruct (Nat.ltb_spec (DIAGTASK_MAX_HOOKNAME_LEN cfg) (strlen nm));
        [reflexivity|lia].
  - intros nm f -> -> Hmin Hmax. unfold registerHook.
    destruct (Nat.ltb_spec (strlen nm) (DIAGTASK_MIN_HOOKNAME_LEN cfg));
      [lia|].
    destruct (Nat.ltb_spec (DIAGTASK_MAX_HOOKNAME_LEN cfg) (strlen nm));
      [lia|].
    cbn [orb]. rewrite (strncpy0_short nm) by exact Hmax.
    split; [now apply substring_whole|].
    destruct description_arg as [d|]; [|reflexivity].
    now rewrite strncpy0_substring.
Qed.

(** A null name, a name of 21 characters, and a registration whose
    description is cut to twenty characters. *)
Lemma registerHook_contract_witness :
  registerHook default_config abc_console None (Some 9) (Some "d"%string)
  = (false, abc_console)
  /\ registerHook default_config abc_console
       (Some "this name is too long"%string) (Some 9) (Some "d"%string)
     = (false, abc_console)
  /\ mHooks (snd (registerHook default_config abc_console
                    (Some "abc"%string) (Some 9)
                    (Some "a description of more than twenty"%string)))
     = [mkHook "abc" "" 1; mkHook "abc" "a description of mor" 9].
Proof.
  destruct (registerHook_contract default_config abc_console None (Some 9)
              (Some "d"%string)) as [Hnull _].
  destruct (registerHook_contract default_config abc_console
              (Some "this name is too long"%string) (Some 9)
              (Some "d"%string)) as [Hlong _].
  destruct (registerHook_contract default_config abc_console
              (Some "abc"%string) (Some 9)
              (Some "a description of more than twenty"%string)) as [_ Hok].
  destruct (Hok "abc"%string 9 eq_refl eq_refl
              ltac:(vm_compute; lia) ltac:(vm_compute; lia)) as [_ Hreg].
  split; [apply Hnull; left; reflexivity|].
  split.
  - apply Hlong. right; right. eexists. split; [reflexivity|].
    right. vm_compute. lia.
  - rewrite Hreg. reflexivity.
Defined.

(** ** The feature mask *)

(** C10: [enableFeatures] replaces the whole mask: after two calls exactly
    the bits of the second mask are set, and nothing else of the console
    has changed. *)
Theorem enableFeatures_replaces_mask (st : DiagTask) (m1 m2 : N) :
  mFeatures (enableFeatures (enableFeatures st m1) m2) = m2
  /\ (forall i, N.testbit (mFeatures (enableFeatures (enableFeatures st m1) m2)) i
                = N.testbit m2 i)
  /\ (forall f, has_feature (enableFeatures (enableFeatures st m1) m2) f
                = negb (N.land m2 f =? 0)%N)
  /\ enableFeatures (enableFeatures st m1) m2 = enableFeatures st m2
  /\ mHooks (enableFeatures st m2) = mHooks st
  /\ mCurrentValidInput (enableFeatures st m2) = mCurrentValidInput st
  /\ mGetchar (enableFeatures st m2) = mGetchar st
  /\ mUptime (enableFeatures st m2) = mUptime st
  /\ mReboot (enableFeatures st m2) = mReboot st
  /\ count (enableFeatures st m2) = count st.
Proof. repeat split. Qed.

(** ** The candidates of a reachable console *)

Lemma process_char_mHooks (cfg : Config) (w : World) (st : DiagTask) (c : Z) :
  mHooks (final (process_char cfg w st c)) = mHooks st.
Proof. apply process_char_keeps. Qed.

Lemma registry_ok_step (cfg : Config) (st : DiagTask) (o : operation) :
  registry_ok cfg st -> registry_ok cfg (apply_operation cfg st o).
Proof.
  unfold registry_ok. intros H. destruct o as [w|n f d|m]; simpl.
  - now rewrite (proj1 (process_keeps cfg w st)).
  - unfold registerHook. destruct n as [nm|], f as [fn|]; simpl; auto.
    destruct (Nat.ltb_spec (strlen nm) (DIAGTASK_MIN_HOOKNAME_LEN cfg));
      simpl; auto.
    destruct (Nat.ltb_spec (DIAGTASK_MAX_HOOKNAME_LEN cfg) (strlen nm));
      simpl; auto.
    apply Forall_app; split; [exact H|].
    constructor; [|constructor]. simpl.
    unfold strlen. rewrite strncpy0_length. lia.
  - exact H.
Qed.

Lemma registry_ok_reachable (cfg : Config) (g u r : bool)
  (ops : list operation) :
  registry_ok cfg (run_operations cfg (DiagTask_new g u r) ops).
Proof.
  unfold run_operations.
  assert (H : registry_ok cfg (DiagTask_new g u r)) by constructor.
  revert H. generalize (DiagTask_new g u r) as st.
  induction ops as [|o ops IH]; intros st H; simpl; [exact H|].
  apply IH. now apply registry_ok_step.
Qed.

(** In every console reached from a constructor, with arrays whose sizes
    fit sixteen bits, the hooks found for the current input, and for the
    input with one more character, are the candidates of the
    specification. *)
Lemma reachable_candidates (cfg : Config) (g u r : bool)
  (ops : list operation) (c : ascii) :
  (Z.of_nat (DIAGTASK_MAX_HOOKNAME_LEN cfg) < 65536)%Z ->
  (Z.of_nat (DIAGTASK_MAX_HOOK_INPUT_LEN cfg) < 65535)%Z ->
  let st := run_operations cfg (DiagTask_new g u r) ops in
  privFindHooks (mHooks st) (mCurrentValidInput st)
  = findCandidates (mHooks st) (mCurrentValidInput st)
  /\ privFindHooks (mHooks st) (store_at_end (mCurrentValidInput st) c)
     = findCandidates (mHooks st) (store_at_end (mCurrentValidInput st) c).
Proof.
  intros Hn Hi st.
  pose proof (registry_ok_reachable cfg g u r ops) as Hreg.
  pose proof (buffer_ok_reachable cfg g u r ops) as [Hlen _].
  fold st in Hreg, Hlen.
  assert (Hnames : Forall (fun h => fits_uint16 (name h)) (mHooks st)).
  { eapply Forall_impl; [|exact Hreg]. intros h Hh. unfold fits_uint16.
    unfold strlen in Hh. lia. }
  split; apply privFindHooks_findCandidates; auto; unfold fits_uint16.
  - unfold strlen in Hlen. lia.
  - pose proof (strlen_store_at_end (mCurrentValidInput st) c) as E.
    unfold strlen in *. destruct (Ascii.eqb c NUL); lia.
Qed.

(** With the sizes of the header, no hypothesis is left. *)
Lemma reachable_candidates_default (g u r : bool) (ops : list operation) :
  privFindHooks
    (mHooks (run_operations default_config (DiagTask_new g u r) ops))
    (mCurrentValidInput
       (run_operations default_config (DiagTask_new g u r) ops))
  = findCandidates
      (mHooks (run_operations default_config (DiagTask_new g u r) ops))
      (mCurrentValidInput
         (run_operations default_config (DiagTask_new g u r) ops)).
Proof.
  apply (reachable_candidates default_config g u r ops NUL);
    vm_compute; reflexivity.
Qed.

(** ** Candidates as prefixes *)

Lemma substring_0_0 (s : string) : substring 0 0 s = EmptyString.
Proof. now destruct s. Qed.

Lemma prefix_empty (s : string) : String.prefix EmptyString s = true.
Proof. now destruct s. Qed.

(** A hook is a candidate exactly when its static portion is a prefix of
    the input or the input is a prefix of its static portion. *)
Lemma is_candidate_prefix (prefixText : string) (h : hookEntry_t) :
  is_candidate prefixText h = true
  <-> String.prefix (static_part (name h)) prefixText = true
      \/ String.prefix prefixText (static_part (name h)) = true.
Proof.
  unfold is_candidate, equal_over, static_part.
  generalize (name h) as nm. clear h. intros nm. revert prefixText.
  induction nm as [|x r IH]; intros p.
  - simpl. rewrite !substring_0_0. split; [left; apply prefix_empty|reflexivity].
  - simpl staticLength.
    destruct (Ascii.eqb x SPECIAL_KEYWORD_WILDCARD).
    + simpl. rewrite !substring_0_0.
      split; [left; apply prefix_empty|reflexivity].
    + destruct p as [|y q].
      * simpl. split; [right; reflexivity|reflexivity].
      * simpl. specialize (IH q).
        destruct (Ascii.eqb_spec x y) as [->|Hxy].
        -- destruct (ascii_dec y y) as [_|N]; [|contradiction].
           exact IH.
        -- destruct (ascii_dec x y) as [E|_]; [contradiction|].
           destruct (ascii_dec y x) as [E|_]; [congruence|].
           split; [discriminate|intros [H|H]; discriminate].
Qed.

(** ** The examples of the specification *)

Example abc_abd_session :
  typed_calls default_config abc_abd_console "ab" = []
  /\ typed_calls default_config abc_abd_console "abcabd"
     = [(1, EmptyString); (2, EmptyString)].
Proof. split; reflexivity. Qed.

Example wildcard_session :
  typed_calls default_config (console_with [("cmd *"%string, 7)] 0) "cmd foo"
  = []
  /\ typed_calls default_config (console_with [("cmd *"%string, 7)] 0)
       ("cmd foo" ++ nl) = [(7, "foo"%string)]
  /\ mCurrentValidInput
       (type_text default_config (console_with [("cmd *"%string, 7)] 0)
          ("cmd foo" ++ nl)) = EmptyString.
Proof. repeat split; reflexivity. Qed.

Example overflow_session :
  typed_calls default_config (console_with [("cmd *"%string, 7)] 0)
    "cmd abcdefghijklmnopqrstuvwxyz0" = []
  /\ mCurrentValidInput
       (type_text default_config (console_with [("cmd *"%string, 7)] 0)
          "cmd abcdefghijklmnopqrstuvwxyz0") = EmptyString.
Proof. split; reflexivity. Qed.

(** * Further properties of the code *)

(** ** The match engine beyond its specification *)

Lemma substring_0_length (n : nat) (s : string) :
  String.length (substring 0 n s) = Nat.min n (String.length s).
Proof.
  revert n; induction s as [|x r IH]; intros [|n]; simpl; try reflexivity.
  now rewrite IH.
Qed.

Lemma substring_0_shrink (m n : nat) (s : string) :
  m <= n -> substring 0 m (substring 0 n s) = substring 0 m s.
Proof.
  revert m n; induction s as [|x r IH]; intros [|m] [|n] H; simpl;
    try reflexivity; try lia.
  rewrite IH by lia. reflexivity.
Qed.

Lemma substring_0_append (n : nat) (p q : string) :
  n <= String.length p -> substring 0 n (p ++ q) = substring 0 n p.
Proof.
  revert n; induction p as [|x r IH]; intros [|n] H; simpl in *;
    try reflexivity; try lia.
  - now destruct q.
  - rewrite IH by lia. reflexivity.
Qed.

Lemma append_length (p q : string) :
  String.length (p ++ q) = String.length p + String.length q.
Proof. induction p as [|x r IH]; simpl; [reflexivity|now rewrite IH]. Qed.

Lemma equal_over_shrink (m n : nat) (a b : string) :
  m <= n -> equal_over n a b = true -> equal_over m a b = true.
Proof.
  unfold equal_over. intros H E. apply String.eqb_eq in E.
  apply String.eqb_eq.
  rewrite <- (substring_0_shrink m n a H), <- (substring_0_shrink m n b H).
  now rewrite E.
Qed.

(** A candidate of a longer input is a candidate of each of its prefixes. *)
Lemma is_candidate_shorter (p q : string) (h : hookEntry_t) :
  is_candidate (p ++ q) h = true -> is_candidate p h = true.
Proof.
  unfold is_candidate. intros E.
  apply (equal_over_shrink
           (Nat.min (staticLength (name h)) (String.length p))) in E;
    [|rewrite append_length; lia].
  unfold equal_over in *.
  rewrite substring_0_append in E by lia. exact E.
Qed.

(** Past its static portion a candidate stays one whatever is added. *)
Lemma is_candidate_longer (p q : string) (h : hookEntry_t) :
  staticLength (name h) <= String.length p ->
  is_candidate p h = true -> is_candidate (p ++ q) h = true.
Proof.
  unfold is_candidate, equal_over. intros Hs E.
  rewrite append_length.
  replace (Nat.min (staticLength (name h)) (String.length p + String.length q))
    with (Nat.min (staticLength (name h)) (String.length p)) by lia.
  rewrite substring_0_append by lia. exact E.
Qed.

Lemma static_part_length (nm : string) :
  String.length (static_part nm) = staticLength nm.
Proof.
  unfold static_part. rewrite substring_0_length.
  pose proof (staticLength_le nm). lia.
Qed.

Lemma prefix_length_le (a b : string) :
  String.prefix a b = true -> String.length a <= String.length b.
Proof.
  revert b; induction a as [|x r IH]; intros [|y b]; simpl; try lia;
    try discriminate.
  destruct (ascii_dec x y); [|discriminate].
  intros H. specialize (IH _ H). lia.
Qed.

(** Whatever is a candidate for a hook is one for every hook that shadows
    it. *)
Lemma is_candidate_shadowed (p : string) (h1 h2 : hookEntry_t) :
  shadows h1 h2 -> is_candidate p h2 = true -> is_candidate p h1 = true.
Proof.
  unfold shadows, is_candidate. intros Hsh E.
  pose proof (prefix_length_le _ _ Hsh) as Hle.
  rewrite !static_part_length in Hle.
  apply String.prefix_correct in Hsh.
  rewrite static_part_length in Hsh. unfold static_part in Hsh.
  rewrite substring_0_shrink in Hsh by exact Hle.
  apply (equal_over_shrink
           (Nat.min (staticLength (name h1)) (String.length p))) in E;
    [|lia].
  unfold equal_over in *. apply String.eqb_eq in E. apply String.eqb_eq.
  rewrite <- E.
  rewrite <- (substring_0_shrink _ (staticLength (name h1)) (name h1))
    by lia.
  rewrite <- (substring_0_shrink _ (staticLength (name h1)) (name h2))
    by lia.
  now rewrite Hsh.
Qed.

Lemma fits_uint16_append_l (p q : string) :
  fits_uint16 (p ++ q) -> fits_uint16 p.
Proof. unfold fits_uint16. rewrite append_length. lia. Qed.

Lemma In_privFindHooks (hooks : diagtask_vector) (prefix : string)
  (h : hookEntry_t) :
  In h (privFindHooks hooks prefix)
  <-> In h hooks /\ hook_selected (uint16 (strlen prefix)) prefix h = true.
Proof. rewrite privFindHooks_filter. apply filter_In. Qed.

(** X1: the candidates can only get fewer while the input grows: every hook
    found for an input is found for each prefix of that input. *)
Theorem privFindHooks_shrinks_with_input
  (hooks : diagtask_vector) (p q : string) (h : hookEntry_t) :
  fits_uint16 (p ++ q) ->
  Forall (fun x => fits_uint16 (name x)) hooks ->
  In h (privFindHooks hooks (p ++ q)) -> In h (privFindHooks hooks p).
Proof.
  intros Hpq Hn. pose proof (fits_uint16_append_l _ _ Hpq) as Hp.
  rewrite !In_privFindHooks. intros [Hin Hs]. split; [exact Hin|].
  rewrite Forall_forall in Hn. specialize (Hn _ Hin).
  rewrite hook_selected_is_candidate in * by assumption.
  now apply is_candidate_shorter with (q := q).
Qed.

(** The candidates of ["abc"] are among those of ["ab"]. *)
Lemma privFindHooks_shrinks_with_input_witness :
  In (mkHook "abc" "" 1)
     (privFindHooks [mkHook "abc" "" 1; mkHook "abd" "" 2] "ab").
Proof.
  apply (privFindHooks_shrinks_with_input
           [mkHook "abc" "" 1; mkHook "abd" "" 2] "ab" "c").
  - unfold fits_uint16. simpl. lia.
  - repeat constructor; unfold fits_uint16; simpl; lia.
  - vm_compute. left. reflexivity.
Defined.

(** X2: once the input covers the static portion of a hook that is found,
    the hook is found for every continuation of the input: the wildcard
    region matches anything, and so does whatever follows the full name of
    a hook without wildcard. *)
Theorem privFindHooks_keeps_past_static_part
  (hooks : diagtask_vector) (p q : string) (h : hookEntry_t) :
  fits_uint16 (p ++ q) ->
  Forall (fun x => fits_uint16 (name x)) hooks ->
  staticLength (name h) <= String.length p ->
  In h (privFindHooks hooks p) -> In h (privFindHooks hooks (p ++ q)).
Proof.
  intros Hpq Hn Hs. pose proof (fits_uint16_append_l _ _ Hpq) as Hp.
  rewrite !In_privFindHooks. intros [Hin Hsel]. split; [exact Hin|].
  rewrite Forall_forall in Hn. specialize (Hn _ Hin).
  rewrite hook_selected_is_candidate in * by assumption.
  now apply is_candidate_longer.
Qed.

(** ["cmd *"] is still found after an argument was typed. *)
Lemma privFindHooks_keeps_past_static_part_witness :
  In (mkHook "cmd *" "" 7)
     (privFindHooks [mkHook "cmd *" "" 7; mkHook "abc" "" 1] "cmd 12 34").
Proof.
  apply (privFindHooks_keeps_past_static_part
           [mkHook "cmd *" "" 7; mkHook "abc" "" 1] "cmd " "12 34").
  - unfold fits_uint16. simpl. lia.
  - repeat constructor; unfold fits_uint16; simpl; lia.
  - vm_compute. lia.
  - vm_compute. left. reflexivity.
Defined.

(** X3: when the length of the input is a multiple of 65536, and so for the
    empty input, [lenInput] is 0 and every registered hook is returned. *)
Theorem privFindHooks_length_wraps
  (hooks : diagtask_vector) (prefix : string) :
  (Z.of_nat (String.length prefix) mod 65536 = 0)%Z ->
  privFindHooks hooks prefix = hooks.
Proof.
  intros H. rewrite privFindHooks_filter.
  assert (E : uint16 (strlen prefix) = 0).
  { unfold uint16, strlen. rewrite H. reflexivity. }
  rewrite E.
  assert (Hall : forall h, hook_selected 0 prefix h = true).
  { intros h. unfold hook_selected. rewrite Nat.min_0_r.
    now destruct (name h). }
  induction hooks as [|h l IH]; [reflexivity|].
  cbn [filter]. rewrite Hall, IH. reflexivity.
Qed.

Lemma privFindHooks_length_wraps_witness :
  privFindHooks [mkHook "abc" "" 1; mkHook "cmd *" "" 7] EmptyString
  = [mkHook "abc" "" 1; mkHook "cmd *" "" 7].
Proof.
  apply (privFindHooks_length_wraps
           [mkHook "abc" "" 1; mkHook "cmd *" "" 7] EmptyString).
  reflexivity.
Defined.

Lemma filter_two_positions {A : Type} (keep : A -> bool)
  (l1 l2 l3 : list A) (x y : A) :
  keep x = true -> keep y = true ->
  2 <= List.length (filter keep (l1 ++ x :: l2 ++ y :: l3)).
Proof.
  intros Hx Hy. rewrite filter_app. simpl. rewrite Hx. simpl.
  rewrite filter_app. simpl. rewrite Hy.
  rewrite length_app. simpl. rewrite length_app. simpl. lia.
Qed.

(** X4: of two registered hooks, the one whose static portion extends (or
    equals) the static portion of the other is never found alone: whenever
    it is found, at least two hooks are.  So [process], which calls a hook
    only when it is found alone, reaches neither a duplicate name nor a
    name that continues another name. *)
Theorem shadowed_hook_never_alone
  (l1 l2 l3 : diagtask_vector) (x y : hookEntry_t) (prefix : string) :
  fits_uint16 prefix -> fits_uint16 (name x) -> fits_uint16 (name y) ->
  (shadows x y ->
   In y (privFindHooks (l1 ++ x :: l2 ++ y :: l3) prefix) ->
   2 <= List.length (privFindHooks (l1 ++ x :: l2 ++ y :: l3) prefix))
  /\ (shadows y x ->
      In x (privFindHooks (l1 ++ x :: l2 ++ y :: l3) prefix) ->
      2 <= List.length (privFindHooks (l1 ++ x :: l2 ++ y :: l3) prefix)).
Proof.
  intros Hp Hx Hy.
  split; intros Hsh Hin; apply In_privFindHooks in Hin as [_ Hsel];
    rewrite privFindHooks_filter; apply filter_two_positions;
    rewrite hook_selected_is_candidate in * by assumption;
    try assumption.
  - now apply (is_candidate_shadowed prefix x y).
  - now apply (is_candidate_shadowed prefix y x).
Qed.

(** With ["ab"] and ["abc"] registered, ["abc"] is found with ["ab"]. *)
Lemma shadowed_hook_never_alone_witness :
  2 <= List.length
         (privFindHooks ([] ++ mkHook "ab" "" 1 :: [] ++ mkHook "abc" "" 2 :: [])
            "abc").
Proof.
  destruct (shadowed_hook_never_alone [] [] [] (mkHook "ab" "" 1)
              (mkHook "abc" "" 2) "abc") as [Hlong _].
  - unfold fits_uint16. simpl. lia.
  - unfold fits_uint16. simpl. lia.
  - unfold fits_uint16. simpl. lia.
  - apply Hlong; [reflexivity|]. vm_compute. right; left. reflexivity.
Defined.

(** ** [process] as a whole *)

(** X5: without a byte source, or without a pending byte, [process] does
    nothing at all. *)
Theorem process_idle (cfg : Config) (w : World) (st : DiagTask) :
  mGetchar st = false \/ (getch w < 0)%Z ->
  process cfg w st = mkRun st [] Returns.
Proof.
  intros [H|H]; unfold process.
  - now rewrite H.
  - destruct (mGetchar st); [|reflexivity]. simpl.
    destruct (Z.ltb_spec (getch w) 0); [reflexivity|lia].
Qed.

Lemma process_idle_witness :
  process default_config (mkWorld (-1) 0) abc_abd_typed_ab
  = mkRun abc_abd_typed_ab [] Returns.
Proof.
  apply (process_idle default_config (mkWorld (-1) 0) abc_abd_typed_ab).
  right. simpl. lia.
Defined.

(** X6: the bytes NUL and carriage return are processed exactly as line
    feed is, in every state. *)
Theorem process_line_endings (cfg : Config) (st : DiagTask) (u : N) :
  process cfg (mkWorld 0 u) st = process cfg (mkWorld 10 u) st
  /\ process cfg (mkWorld 13 u) st = process cfg (mkWorld 10 u) st.
Proof. split; reflexivity. Qed.

Lemma special_frame (cfg : Config) (w : World) (st : DiagTask) (c : ascii) :
  let st1 := snd (fst (privCheckAndProcessSpecialChars cfg w st c)) in
  mHooks st1 = mHooks st /\ mFeatures st1 = mFeatures st
  /\ mGetchar st1 = mGetchar st /\ mUptime st1 = mUptime st
  /\ mReboot st1 = mReboot st
  /\ (count st1 = count st \/ count st1 = ((count st + 1) mod 2 ^ 32)%N).
Proof.
  unfold privCheckAndProcessSpecialChars.
  repeat match goal with
         | |- context [if ?b then _ else _] => destruct b
         end; simpl; auto 10.
Qed.

Lemma tab_frame (cfg : Config) (st : DiagTask) (c : ascii) :
  let st1 := snd (fst (processTabCompetion cfg st c)) in
  mHooks st1 = mHooks st /\ mFeatures st1 = mFeatures st
  /\ mGetchar st1 = mGetchar st /\ mUptime st1 = mUptime st
  /\ mReboot st1 = mReboot st /\ count st1 = count st.
Proof.
  unfold processTabCompetion.
  destruct (_ && _ && _); simpl; auto 10.
  destruct (mCurrentValidInput st); simpl; auto 10.
  destruct (privFindHooks _ _) as [|h [|h' l]]; simpl; auto 10.
Qed.

Lemma accumulate_frame (st : DiagTask) (len : nat) (c : ascii) :
  let st1 := final (accumulate st len c) in
  mHooks st1 = mHooks st /\ mFeatures st1 = mFeatures st
  /\ mGetchar st1 = mGetchar st /\ mUptime st1 = mUptime st
  /\ mReboot st1 = mReboot st /\ count st1 = count st.
Proof.
  unfold accumulate; simpl.
  destruct (privFindHooks _ _) as [|h [|h' l]];
    [ | destruct (_ <=? _);
        [destruct (strchr _ _); [destruct (Ascii.eqb _ _)|]|] | ];
    simpl; auto 10.
Qed.

(** X7: [process] never touches the registry, the feature mask or the
    three function pointers; the separator counter stays or advances by
    one modulo 2^32; and the input is afterwards empty, as it was, or as it
    was with the received character stored at its end. *)
Theorem process_frame (cfg : Config) (w : World) (st : DiagTask) :
  mHooks (final (process cfg w st)) = mHooks st
  /\ mFeatures (final (process cfg w st)) = mFeatures st
  /\ mGetchar (final (process cfg w st)) = mGetchar st
  /\ mUptime (final (process cfg w st)) = mUptime st
  /\ mReboot (final (process cfg w st)) = mReboot st
  /\ (count (final (process cfg w st)) = count st
      \/ count (final (process cfg w st)) = ((count st + 1) mod 2 ^ 32)%N)
  /\ (mCurrentValidInput (final (process cfg w st)) = EmptyString
      \/ mCurrentValidInput (final (process cfg w st)) = mCurrentValidInput st
      \/ mCurrentValidInput (final (process cfg w st))
         = store_at_end (mCurrentValidInput st)
             (char_of_int (normalize (getch w)))).
Proof.
  unfold process.
  destruct (mGetchar st) eqn:Hg; cbn [negb final]; [|rewrite Hg; auto 10].
  destruct (getch w <? 0)%Z; cbn [final]; [rewrite Hg; auto 10|].
  rewrite <- Hg.
  assert (Hin :
    mCurrentValidInput (final (process_char cfg w st (normalize (getch w))))
    = EmptyString
    \/ mCurrentValidInput (final (process_char cfg w st (normalize (getch w))))
       = mCurrentValidInput st
    \/ mCurrentValidInput (final (process_char cfg w st (normalize (getch w))))
       = store_at_end (mCurrentValidInput st)
           (char_of_int (normalize (getch w)))).
  { destruct (process_char_keeps cfg w st (normalize (getch w)))
      as [_ [K|[K|(_ & K & _)]]]; auto. }
  revert Hin. generalize (normalize (getch w)) as c. intros c Hin.
  assert (Hrest :
    let st1 := final (process_char cfg w st c) in
    mHooks st1 = mHooks st /\ mFeatures st1 = mFeatures st
    /\ mGetchar st1 = mGetchar st /\ mUptime st1 = mUptime st
    /\ mReboot st1 = mReboot st
    /\ (count st1 = count st \/ count st1 = ((count st + 1) mod 2 ^ 32)%N)).
  { unfold process_char.
    destruct (_ =? _); [simpl; auto 10|].
    destruct (mCurrentValidInput st) eqn:E.
    - pose proof (special_frame cfg w st (char_of_int c)) as F.
      pose proof (special_not_handled cfg w st (char_of_int c)) as N.
      destruct (privCheckAndProcessSpecialChars cfg w st (char_of_int c))
        as [[s st1] out1]. cbn [fst snd] in F, N.
      destruct s; try exact F.
      specialize (N eq_refl). injection N as -> ->.
      pose proof (tab_frame cfg st (char_of_int c)) as T.
      pose proof (tab_not_taken cfg st (char_of_int c)) as T'.
      destruct (processTabCompetion cfg st (char_of_int c))
        as [[tabbed st2] out2]. cbn [fst snd] in T, T'.
      destruct tabbed; [cbn; intuition|].
      specialize (T' eq_refl). injection T' as -> ->.
      pose proof (accumulate_frame st (strlen EmptyString) (char_of_int c)).
      rewrite <- E. cbn. rewrite E. cbn in H. intuition.
    - pose proof (tab_frame cfg st (char_of_int c)) as T.
      pose proof (tab_not_taken cfg st (char_of_int c)) as T'.
      destruct (processTabCompetion cfg st (char_of_int c))
        as [[tabbed st2] out2]. cbn [fst snd] in T, T'.
      destruct tabbed; [cbn; intuition|].
      specialize (T' eq_refl). injection T' as -> ->.
      pose proof (accumulate_frame st (strlen (String a s)) (char_of_int c)).
      cbn. cbn in H. intuition. }
  cbv zeta in Hrest. intuition.
Qed.

(** The four ways through the loop body. *)
Lemma process_char_cases (cfg : Config) (w : World) (st : DiagTask) (c : Z) :
  (strlen (mCurrentValidInput st) = DIAGTASK_MAX_HOOK_INPUT_LEN cfg
   /\ process_char cfg w st c = mkRun (reset_input st) [] Returns)
  \/ (strlen (mCurrentValidInput st) <> DIAGTASK_MAX_HOOK_INPUT_LEN cfg
      /\ mCurrentValidInput st = EmptyString
      /\ exists s st1 out,
           privCheckAndProcessSpecialChars cfg w st (char_of_int c)
           = (s, st1, out)
           /\ s <> NotHandled
           /\ process_char cfg w st c
              = mkRun st1 out
                  (match s with NoReturn => NeverReturns | _ => Returns end))
  \/ (strlen (mCurrentValidInput st) <> DIAGTASK_MAX_HOOK_INPUT_LEN cfg
      /\ special_declines cfg w st (char_of_int c) = true
      /\ exists st2 out2,
           processTabCompetion cfg st (char_of_int c) = (true, st2, out2)
           /\ process_char cfg w st c = mkRun st2 out2 Returns)
  \/ (reaches_store cfg w st (char_of_int c) = true
      /\ process_char cfg w st c
         = accumulate st (strlen (mCurrentValidInput st)) (char_of_int c)).
Proof.
  destruct (Nat.eq_dec (strlen (mCurrentValidInput st))
              (DIAGTASK_MAX_HOOK_INPUT_LEN cfg)) as [Hf|Hnf].
  { left. split; [exact Hf|now apply process_char_full]. }
  right.
  destruct (special_declines cfg w st (char_of_int c)) eqn:Hs.
  - right.
    destruct (fst (fst (processTabCompetion cfg st (char_of_int c)))) eqn:Ht.
    + left. split; [exact Hnf|]. split; [reflexivity|].
      unfold process_char. apply Nat.eqb_neq in Hnf. rewrite Hnf.
      assert (Hsp :
        match mCurrentValidInput st with
        | EmptyString =>
            privCheckAndProcessSpecialChars cfg w st (char_of_int c)
        | String _ _ => (NotHandled, st, [])
        end = (NotHandled, st, [])).
      { unfold special_declines in Hs.
        destruct (mCurrentValidInput st); [|reflexivity].
        apply special_not_handled.
        destruct (fst (fst (privCheckAndProcessSpecialChars cfg w st
                              (char_of_int c)))); congruence. }
      rewrite Hsp.
      destruct (processTabCompetion cfg st (char_of_int c))
        as [[tabbed st2] out2]. simpl in Ht. subst tabbed.
      exists st2, out2. split; reflexivity.
    + right.
      assert (Hr : reaches_store cfg w st (char_of_int c) = true).
      { unfold reaches_store, tab_declines. rewrite Hs, Ht.
        apply Nat.eqb_neq in Hnf. now rewrite Hnf. }
      split; [exact Hr|now apply process_char_store].
  - left. split; [exact Hnf|].
    unfold special_declines in Hs.
    destruct (mCurrentValidInput st) eqn:E; [|discriminate].
    split; [reflexivity|].
    unfold process_char. apply Nat.eqb_neq in Hnf.
    rewrite E. simpl strlen in *. rewrite Hnf.
    destruct (privCheckAndProcessSpecialChars cfg w st (char_of_int c))
      as [[s st1] out]. simpl in Hs.
    exists s, st1, out. split; [reflexivity|].
    destruct s; try discriminate; split; congruence || reflexivity.
Qed.

Lemma calls_printf_map {A : Type} (f : A -> string) (l : list A) :
  calls (map (fun x => Printf (f x)) l) = [].
Proof. induction l as [|x l IH]; simpl; [reflexivity|exact IH]. Qed.

Lemma special_calls (cfg : Config) (w : World) (st : DiagTask) (c : ascii) :
  calls (snd (privCheckAndProcessSpecialChars cfg w st c)) = [].
Proof.
  unfold privCheckAndProcessSpecialChars, privHelp.
  repeat match goal with
         | |- context [if ?b then _ else _] => destruct b
         end; simpl; try reflexivity;
    apply (calls_printf_map hook_line).
Qed.

Lemma special_input (cfg : Config) (w : World) (st : DiagTask) (c : ascii) :
  mCurrentValidInput st = EmptyString ->
  mCurrentValidInput (snd (fst (privCheckAndProcessSpecialChars cfg w st c)))
  = EmptyString.
Proof.
  intros E. destruct (special_keeps cfg w st c) as [_ [K|K]]; congruence.
Qed.

Lemma privFindHooks_single_In (hooks : diagtask_vector) (prefix : string)
  (h : hookEntry_t) :
  privFindHooks hooks prefix = [h] -> In h hooks.
Proof.
  intros E. apply (In_privFindHooks hooks prefix h). rewrite E. now left.
Qed.

(** X8: one call of [process] calls at most one hook; the hook called is
    registered and is the only one found, for the input as it was (tab
    completion) or for the input with the received character stored; after
    the call of a hook the input is empty, and [process] returns. *)
Theorem process_calls_at_most_one (cfg : Config) (w : World) (st : DiagTask) :
  calls (trace (process cfg w st)) = []
  \/ exists h arg,
       calls (trace (process cfg w st)) = [(hook h, arg)]
       /\ In h (mHooks st)
       /\ (privFindHooks (mHooks st) (mCurrentValidInput st) = [h]
           \/ privFindHooks (mHooks st)
                (store_at_end (mCurrentValidInput st)
                   (char_of_int (normalize (getch w)))) = [h])
       /\ mCurrentValidInput (final (process cfg w st)) = EmptyString
       /\ ctl (process cfg w st) = Returns.
Proof.
  unfold process.
  destruct (mGetchar st); [|left; reflexivity]. cbn [negb].
  destruct (getch w <? 0)%Z; [left; reflexivity|].
  cbn [final trace ctl]. rewrite calls_app, calls_echo. cbn [app].
  generalize (normalize (getch w)) as c. intros c.
  destruct (process_char_cases cfg w st c)
    as [[_ ->]|[(_ & E & s & st1 & out & Hp & _ & ->)
               |[(_ & _ & st2 & out2 & Ht & ->)|[_ ->]]]].
  - left. reflexivity.
  - left. cbn [trace].
    pose proof (special_calls cfg w st (char_of_int c)) as K.
    now rewrite Hp in K.
  - cbn [final trace ctl]. revert Ht. unfold processTabCompetion.
    destruct (_ && _ && _); [|discriminate].
    destruct (mCurrentValidInput st) as [|x s] eqn:E;
      [intros [= <- <-]; left; reflexivity|].
    destruct (privFindHooks (mHooks st) (String x s)) as [|h [|h' l]] eqn:F;
      intros [= <- <-].
    + left. reflexivity.
    + right. exists h, EmptyString. repeat split; auto.
      now apply privFindHooks_single_In with (prefix := String x s).
    + left. cbn [calls].
      apply (calls_tab_candidates cfg (String x s) (h :: h' :: l)).
  - unfold accumulate. cbn [mHooks mCurrentValidInput set_input].
    destruct (privFindHooks (mHooks st)
                (store_at_end (mCurrentValidInput st) (char_of_int c)))
      as [|h [|h' l]] eqn:F; [left; reflexivity| |left; reflexivity].
    pose proof (privFindHooks_single_In _ _ _ F) as Hin.
    destruct (_ <=? _); [|left; reflexivity].
    destruct (strchr _ _); [destruct (Ascii.eqb _ _)|];
      [right|left; reflexivity|right]; eexists h, _; repeat split; auto.
Qed.

(** ** Special commands one by one *)

Lemma keyword_armed_help (cfg : Config) (st : DiagTask) :
  keyword_armed cfg st SPECIAL_KEYWORD_HELP
  = DIAGTASK_ENABLE_HELP cfg && has_feature st feature_Help && true.
Proof. reflexivity. Qed.

Lemma keyword_armed_separator (cfg : Config) (st : DiagTask) :
  keyword_armed cfg st SPECIAL_KEYWORD_SEPARATOR
  = DIAGTASK_ENABLE_SEPARATOR cfg && has_feature st feature_Seperator && true.
Proof. reflexivity. Qed.

Lemma keyword_armed_reboot (cfg : Config) (st : DiagTask) :
  keyword_armed cfg st SPECIAL_KEYWORD_REBOOT
  = DIAGTASK_ENABLE_REBOOT cfg && has_feature st feature_Reboot && mReboot st.
Proof. reflexivity. Qed.

Lemma keyword_armed_search (cfg : Config) (st : DiagTask) :
  keyword_armed cfg st SPECIAL_KEYWORD_SEARCH
  = DIAGTASK_ENABLE_SEARCH cfg && has_feature st feature_Search && true.
Proof. reflexivity. Qed.

(** A keyword that is not armed is not taken by the special commands. *)
Lemma unarmed_not_handled (cfg : Config) (w : World) (st : DiagTask)
  (c : ascii) :
  keyword_armed cfg st c = false ->
  privCheckAndProcessSpecialChars cfg w st c = (NotHandled, st, []).
Proof.
  intros H. unfold privCheckAndProcessSpecialChars.
  destruct (_ && _ && Ascii.eqb c SPECIAL_KEYWORD_HELP) eqn:B1.
  { apply andb_prop in B1 as [B1 E]. apply Ascii.eqb_eq in E. subst c.
    rewrite keyword_armed_help, B1 in H. discriminate. }
  destruct (_ && _ && Ascii.eqb c SPECIAL_KEYWORD_SEPARATOR) eqn:B2.
  { apply andb_prop in B2 as [B2 E]. apply Ascii.eqb_eq in E. subst c.
    rewrite keyword_armed_separator, B2 in H. discriminate. }
  destruct (_ && _ && _ && Ascii.eqb c SPECIAL_KEYWORD_REBOOT) eqn:B3.
  { apply andb_prop in B3 as [B3 E]. apply Ascii.eqb_eq in E. subst c.
    rewrite keyword_armed_reboot, B3 in H. discriminate. }
  destruct (_ && _ && Ascii.eqb c SPECIAL_KEYWORD_SEARCH) eqn:B4.
  { apply andb_prop in B4 as [B4 E]. apply Ascii.eqb_eq in E. subst c.
    rewrite keyword_armed_search, B4 in H. discriminate. }
  reflexivity.
Qed.

(** X9: a character that is neither an armed special keyword nor the tab
    keyword with tab completion armed is, below the capacity of the input,
    stored and matched against the hook names, whether the input is empty
    or not: a keyword whose feature bit is clear or whose command is
    compiled out, and the reboot keyword without reboot function, are
    ordinary text. *)
Theorem unarmed_keyword_is_text (cfg : Config) (w : World) (st : DiagTask) :
  mGetchar st = true -> (0 <= getch w)%Z ->
  keyword_armed cfg st (char_of_int (normalize (getch w))) = false ->
  Ascii.eqb (char_of_int (normalize (getch w))) SPECIAL_KEYWORD_TAB
  && tab_armed cfg st = false ->
  strlen (mCurrentValidInput st) <> DIAGTASK_MAX_HOOK_INPUT_LEN cfg ->
  let c := normalize (getch w) in
  let stored := accumulate st (strlen (mCurrentValidInput st))
                  (char_of_int c) in
  final (process cfg w st) = final stored
  /\ trace (process cfg w st) = echo c ++ trace stored
  /\ ctl (process cfg w st) = Returns.
Proof.
  intros Hg Hc Hk Ht Hnf. cbv zeta.
  rewrite (process_pending _ _ _ Hg Hc). cbn [final trace ctl].
  rewrite process_char_store.
  - repeat split. apply (accumulate_plain_effects st _ _).
  - unfold reaches_store, special_declines, tab_declines.
    rewrite (unarmed_not_handled _ w _ _ Hk). cbn [fst].
    apply Nat.eqb_neq in Hnf. rewrite Hnf. cbn [negb andb].
    assert (E : processTabCompetion cfg st
                  (char_of_int (normalize (getch w))) = (false, st, [])).
    { unfold processTabCompetion. unfold tab_armed in Ht.
      rewrite andb_comm in Ht. rewrite Ht. reflexivity. }
    rewrite E. now destruct (mCurrentValidInput st).
Qed.

(** In the default build the search command is compiled out: with the
    search bit set, ["/"] still reaches the hook ["/x"]. *)
Lemma unarmed_keyword_is_text_witness :
  mCurrentValidInput
    (final (process default_config (key "/")
              (console_with [("/x"%string, 4)] feature_Search)))
  = "/"%string.
Proof.
  destruct (unarmed_keyword_is_text default_config (key "/")
              (console_with [("/x"%string, 4)] feature_Search)
              eq_refl ltac:(vm_compute; discriminate) eq_refl eq_refl
              ltac:(vm_compute; lia)) as (Hfinal & _).
  rewrite Hfinal. reflexivity.
Defined.

(** X10: the separator command.  With the separator compiled in and its bit
    set, the separator keyword on an empty input prints the banner with the
    counter and the uptime (0 without uptime function), advances the
    counter by one modulo 2^32, leaves the input empty, calls no hook and
    returns. *)
Theorem separator_command (cfg : Config) (w : World) (st : DiagTask) :
  mGetchar st = true -> (0 <= getch w)%Z ->
  DIAGTASK_ENABLE_SEPARATOR cfg = true ->
  has_feature st feature_Seperator = true ->
  mCurrentValidInput st = EmptyString ->
  DIAGTASK_MAX_HOOK_INPUT_LEN cfg <> 0 ->
  char_of_int (normalize (getch w)) = SPECIAL_KEYWORD_SEPARATOR ->
  let r := process cfg w st in
  trace r
  = echo (normalize (getch w))
    ++ [Printf (nl ++ nl ++ nl ++ nl)%string;
        Printf ("###########################################" ++ nl)%string;
        Printf ("### SEPARATOR " ++ right_justify 5 (decimal (count st))
                ++ " ######  "
                ++ right_justify 10
                     (decimal (if mUptime st then uptime w else 0%N))
                ++ "  ###" ++ nl)%string;
        Printf ("###########################################" ++ nl)%string;
        Printf (nl ++ nl ++ nl ++ nl)%string]
  /\ count (final r) = ((count st + 1) mod 2 ^ 32)%N
  /\ mCurrentValidInput (final r) = EmptyString
  /\ mHooks (final r) = mHooks st
  /\ calls (trace r) = []
  /\ ctl r = Returns.
Proof.
  intros Hg Hc He Hf Hempty Hcap Hk. cbv zeta.
  rewrite (process_pending _ _ _ Hg Hc).
  unfold process_char. rewrite Hk, Hempty.
  destruct (Nat.eqb_spec (strlen EmptyString) (DIAGTASK_MAX_HOOK_INPUT_LEN cfg))
    as [E|_]; [simpl in E; congruence|].
  unfold privCheckAndProcessSpecialChars. rewrite He, Hf.
  change (Ascii.eqb SPECIAL_KEYWORD_SEPARATOR SPECIAL_KEYWORD_HELP) with false.
  rewrite andb_false_r.
  change (Ascii.eqb SPECIAL_KEYWORD_SEPARATOR SPECIAL_KEYWORD_SEPARATOR)
    with true.
  cbn [andb]. cbn iota. unfold privDisplaySeparator.
  cbn [fst snd final trace ctl reset_input set_input count mHooks
       mCurrentValidInput].
  rewrite calls_app, calls_echo.
  repeat split.
Qed.

(** After the first separator the counter is 1. *)
Lemma separator_command_witness :
  count (final (process default_config (key "#")
                  (console_with [] feature_Seperator))) = 1%N
  /\ calls (trace (process default_config (key "#")
                     (console_with [] feature_Seperator))) = [].
Proof.
  destruct (separator_command default_config (key "#")
              (console_with [] feature_Seperator)
              eq_refl ltac:(vm_compute; discriminate) eq_refl eq_refl eq_refl
              ltac:(vm_compute; discriminate) eq_refl)
    as (_ & Hcount & _ & _ & Hcalls & _).
  split; [rewrite Hcount; reflexivity|exact Hcalls].
Defined.

(** X11: the search command, when it is compiled in and its bit is set, is
    a placeholder: the search keyword on an empty input is echoed, a notice
    is printed, the console is left as it was and no hook is called. *)
Theorem search_placeholder (cfg : Config) (w : World) (st : DiagTask) :
  mGetchar st = true -> (0 <= getch w)%Z ->
  DIAGTASK_ENABLE_SEARCH cfg = true ->
  has_feature st feature_Search = true ->
  mCurrentValidInput st = EmptyString ->
  DIAGTASK_MAX_HOOK_INPUT_LEN cfg <> 0 ->
  char_of_int (normalize (getch w)) = SPECIAL_KEYWORD_SEARCH ->
  let r := process cfg w st in
  trace r
  = echo (normalize (getch w))
    ++ [Printf ("net yet implemented" ++ nl)%string]
  /\ In (Putchar SPECIAL_KEYWORD_SEARCH) (trace r)
  /\ final r = st
  /\ calls (trace r) = []
  /\ ctl r = Returns.
Proof.
  intros Hg Hc He Hf Hempty Hcap Hk. cbv zeta.
  rewrite (process_pending _ _ _ Hg Hc).
  unfold process_char. rewrite Hk, Hempty.
  destruct (Nat.eqb_spec (strlen EmptyString) (DIAGTASK_MAX_HOOK_INPUT_LEN cfg))
    as [E|_]; [simpl in E; congruence|].
  unfold privCheckAndProcessSpecialChars. rewrite He, Hf.
  change (Ascii.eqb SPECIAL_KEYWORD_SEARCH SPECIAL_KEYWORD_HELP) with false.
  change (Ascii.eqb SPECIAL_KEYWORD_SEARCH SPECIAL_KEYWORD_SEPARATOR)
    with false.
  change (Ascii.eqb SPECIAL_KEYWORD_SEARCH SPECIAL_KEYWORD_REBOOT) with false.
  change (Ascii.eqb SPECIAL_KEYWORD_SEARCH SPECIAL_KEYWORD_SEARCH) with true.
  rewrite !andb_false_r. cbn [andb]. cbn iota.
  cbn [fst snd final trace ctl].
  rewrite calls_app, calls_echo.
  assert (Hecho : echo (normalize (getch w))
                  = [Putchar SPECIAL_KEYWORD_SEARCH]).
  { unfold echo. rewrite Hk.
    assert (Hne : forall k,
              Ascii.eqb SPECIAL_KEYWORD_SEARCH k = false ->
              (normalize (getch w) =? int_of_char k)%Z = false).
    { intros k Hkk. apply Z.eqb_neq. intros Heq.
      rewrite Heq in Hk. revert Hk Hkk.
      unfold char_of_int, int_of_char.
      rewrite Z.mod_small
        by (pose proof (N_ascii_bounded k); lia).
      rewrite N2Z.id, ascii_N_embedding. intros ->.
      now rewrite Ascii.eqb_refl. }
    rewrite !Hne by reflexivity. reflexivity. }
  rewrite Hecho.
  repeat split; try (now left).
  destruct st; simpl in *; subst; reflexivity.
Qed.

Lemma search_placeholder_witness :
  trace (process (mkConfig true true true true true 20 30 1 20) (key "/")
           (console_with [("abc"%string, 1)] feature_Search))
  = [Putchar "/"; Printf ("net yet implemented" ++ nl)%string].
Proof.
  destruct (search_placeholder (mkConfig true true true true true 20 30 1 20)
              (key "/") (console_with [("abc"%string, 1)] feature_Search)
              eq_refl ltac:(vm_compute; discriminate) eq_refl eq_refl eq_refl
              ltac:(vm_compute; discriminate) eq_refl)
    as (Htrace & _).
  rewrite Htrace. reflexivity.
Defined.

(** ** Reboot *)

Lemma special_no_return (cfg : Config) (w : World) (st : DiagTask)
  (c : ascii) :
  fst (fst (privCheckAndProcessSpecialChars cfg w st c)) = NoReturn
  <-> (DIAGTASK_ENABLE_REBOOT cfg = true
       /\ has_feature st feature_Reboot = true
       /\ mReboot st = true /\ c = SPECIAL_KEYWORD_REBOOT).
Proof.
  unfold privCheckAndProcessSpecialChars.
  destruct (_ && _ && Ascii.eqb c SPECIAL_KEYWORD_HELP) eqn:B1.
  { apply andb_prop in B1 as [_ E]. apply Ascii.eqb_eq in E. subst c.
    cbn [fst]. split; [discriminate|]. intros (_ & _ & _ & E). discriminate. }
  destruct (_ && _ && Ascii.eqb c SPECIAL_KEYWORD_SEPARATOR) eqn:B2.
  { apply andb_prop in B2 as [_ E]. apply Ascii.eqb_eq in E. subst c.
    destruct (privDisplaySeparator w st). cbn [fst].
    split; [discriminate|]. intros (_ & _ & _ & E). discriminate. }
  destruct (_ && _ && _ && Ascii.eqb c SPECIAL_KEYWORD_REBOOT) eqn:B3.
  { apply andb_prop in B3 as [B3 E]. apply Ascii.eqb_eq in E.
    apply andb_prop in B3 as [B3 R]. apply andb_prop in B3 as [C F].
    cbn [fst]. tauto. }
  assert (Hno : ~ (DIAGTASK_ENABLE_REBOOT cfg = true
                   /\ has_feature st feature_Reboot = true
                   /\ mReboot st = true /\ c = SPECIAL_KEYWORD_REBOOT)).
  { intros (C & F & R & ->). rewrite C, F, R in B3. discriminate. }
  destruct (_ && _ && Ascii.eqb c SPECIAL_KEYWORD_SEARCH); cbn [fst];
    split; try discriminate; intros K; contradiction.
Qed.

Lemma special_no_return_run (cfg : Config) (w : World) (st : DiagTask)
  (c : ascii) :
  fst (fst (privCheckAndProcessSpecialChars cfg w st c)) = NoReturn ->
  privCheckAndProcessSpecialChars cfg w st c
  = (NoReturn, st, [Printf ("rebooting" ++ nl)%string; Reboot]).
Proof.
  unfold privCheckAndProcessSpecialChars.
  destruct (_ && _ && Ascii.eqb c SPECIAL_KEYWORD_HELP); [discriminate|].
  destruct (_ && _ && Ascii.eqb c SPECIAL_KEYWORD_SEPARATOR).
  { destruct (privDisplaySeparator w st). discriminate. }
  destruct (_ && _ && _ && Ascii.eqb c SPECIAL_KEYWORD_REBOOT);
    [reflexivity|].
  destruct (_ && _ && Ascii.eqb c SPECIAL_KEYWORD_SEARCH); discriminate.
Qed.

Lemma no_reboot_in_printf_map {A : Type} (f : A -> string) (l : list A) :
  ~ In Reboot (map (fun x => Printf (f x)) l).
Proof.
  intros H. apply in_map_iff in H as (x & E & _). discriminate.
Qed.

Lemma special_reboot_event (cfg : Config) (w : World) (st : DiagTask)
  (c : ascii) :
  In Reboot (snd (privCheckAndProcessSpecialChars cfg w st c)) ->
  fst (fst (privCheckAndProcessSpecialChars cfg w st c)) = NoReturn.
Proof.
  unfold privCheckAndProcessSpecialChars, privHelp.
  destruct (_ && _ && Ascii.eqb c SPECIAL_KEYWORD_HELP).
  { cbn [snd]. intros H. exfalso.
    repeat (apply in_app_or in H as [H|H];
            [repeat match goal with
                    | H : In _ (if ?b then _ else _) |- _ => destruct b
                    end;
             simpl in H; intuition discriminate|]).
    now apply (no_reboot_in_printf_map hook_line) in H. }
  destruct (_ && _ && Ascii.eqb c SPECIAL_KEYWORD_SEPARATOR).
  { unfold privDisplaySeparator. cbn [snd]. simpl.
    intuition discriminate. }
  destruct (_ && _ && _ && Ascii.eqb c SPECIAL_KEYWORD_REBOOT);
    [reflexivity|].
  destruct (_ && _ && Ascii.eqb c SPECIAL_KEYWORD_SEARCH); simpl;
    intuition discriminate.
Qed.

Lemma tab_no_reboot (cfg : Config) (st : DiagTask) (c : ascii) :
  ~ In Reboot (snd (processTabCompetion cfg st c)).
Proof.
  unfold processTabCompetion.
  destruct (_ && _ && _); [|intros []].
  destruct (mCurrentValidInput st) as [|x s]; [intros []|].
  destruct (privFindHooks _ _) as [|h [|h' l]]; cbn [snd].
  - simpl. intuition discriminate.
  - simpl. intuition discriminate.
  - intros [H|H]; [discriminate|].
    apply in_map_iff in H as (y & E & _). unfold tab_candidate in E.
    destruct (_ <=? _); discriminate.
Qed.

(** X12: [process] returns to its caller in every case but one: a byte is
    pending, the input is empty (and the capacity is not 0), reboot is
    compiled in, its bit is set, a reboot function was given and the
    character is the reboot keyword.  Then ["rebooting"] is printed, the
    reboot function is called and the console is otherwise untouched; the
    reboot function is called in no other case. *)
Theorem process_returns_unless_reboot
  (cfg : Config) (w : World) (st : DiagTask) :
  (ctl (process cfg w st) = NeverReturns
   <-> (mGetchar st = true /\ (0 <= getch w)%Z
        /\ mCurrentValidInput st = EmptyString
        /\ DIAGTASK_MAX_HOOK_INPUT_LEN cfg <> 0
        /\ DIAGTASK_ENABLE_REBOOT cfg = true
        /\ has_feature st feature_Reboot = true
        /\ mReboot st = true
        /\ char_of_int (normalize (getch w)) = SPECIAL_KEYWORD_REBOOT))
  /\ (ctl (process cfg w st) = NeverReturns ->
      trace (process cfg w st)
      = echo (normalize (getch w))
        ++ [Printf ("rebooting" ++ nl)%string; Reboot]
      /\ final (process cfg w st) = st)
  /\ (In Reboot (trace (process cfg w st)) ->
      ctl (process cfg w st) = NeverReturns).
Proof.
  unfold process.
  destruct (mGetchar st) eqn:Hg; cbn [negb].
  2:{ cbn [ctl trace]. repeat split; try discriminate; try contradiction.
      intros (K & _). discriminate. }
  destruct (Z.ltb_spec (getch w) 0) as [Hneg|Hpos].
  { cbn [ctl trace]. repeat split; try discriminate; try contradiction.
    intros (_ & K & _). lia. }
  cbn [final trace ctl].
  generalize (normalize (getch w)) as c. intros c.
  destruct (process_char_cases cfg w st c)
    as [[Hf ->]|[(Hnf & E & s & st1 & out & Hp & Hs & ->)
               |[(Hnf & Hd & st2 & out2 & Ht & ->)|[Hr ->]]]];
    cbn [final trace ctl].
  - repeat split; try discriminate.
    + intros (_ & _ & E & Hcap & _). rewrite E in Hf. simpl in Hf. congruence.
    + rewrite app_nil_r. intros H. apply echo_only_putchar in H. discriminate.
  - pose proof (special_no_return cfg w st (char_of_int c)) as N.
    pose proof (special_no_return_run cfg w st (char_of_int c)) as R.
    pose proof (special_reboot_event cfg w st (char_of_int c)) as V.
    rewrite Hp in N, R, V. cbn [fst snd] in N, R, V.
    assert (Hcap : DIAGTASK_MAX_HOOK_INPUT_LEN cfg <> 0).
    { rewrite E in Hnf. simpl in Hnf. congruence. }
    split; [|split].
    + destruct s; try contradiction.
      * split; [discriminate|]. intros K. apply proj2 in N.
        assert (Handled = NoReturn) by (apply N; tauto). discriminate.
      * split; [|reflexivity]. intros _. apply proj1 in N.
        specialize (N eq_refl). tauto.
    + destruct s; try discriminate. intros _.
      specialize (R eq_refl). injection R as -> ->. split; reflexivity.
    + intros H. apply in_app_or in H as [H|H].
      * apply echo_only_putchar in H. discriminate.
      * now rewrite (V H).
  - unfold special_declines in Hd.
    repeat split; try discriminate.
    + intros (_ & _ & E & _ & C & F & R & K). rewrite E in Hd.
      assert (N : fst (fst (privCheckAndProcessSpecialChars cfg w st
                              (char_of_int c))) = NoReturn)
        by (apply special_no_return; tauto).
      rewrite N in Hd. discriminate.
    + intros H. apply in_app_or in H as [H|H].
      * apply echo_only_putchar in H. discriminate.
      * pose proof (tab_no_reboot cfg st (char_of_int c)) as T.
        rewrite Ht in T. contradiction.
  - pose proof (accumulate_plain_effects st (strlen (mCurrentValidInput st))
                  (char_of_int c)) as (A1 & A2 & _).
    rewrite A2. repeat split; try discriminate.
    + intros (_ & _ & E & _ & C & F & R & K).
      unfold reaches_store, special_declines in Hr. rewrite E in Hr.
      assert (N : fst (fst (privCheckAndProcessSpecialChars cfg w st
                              (char_of_int c))) = NoReturn)
        by (apply special_no_return; tauto).
      rewrite N in Hr. rewrite andb_false_r in Hr. discriminate.
    + intros H. apply in_app_or in H as [H|H].
      * apply echo_only_putchar in H. discriminate.
      * destruct (A1 _ H) as [K|(f & a & K)]; discriminate.
Qed.

Lemma process_returns_unless_reboot_witness :
  ctl (process default_config (key "!") reboot_console) = NeverReturns
  /\ trace (process default_config (key "!") reboot_console)
     = [Printf ("rebooting" ++ nl)%string; Reboot]
  /\ final (process default_config (key "!") reboot_console) = reboot_console.
Proof.
  destruct (process_returns_unless_reboot default_config (key "!")
              reboot_console) as ([_ Hiff] & Hrun & _).
  assert (H : ctl (process default_config (key "!") reboot_console)
              = NeverReturns).
  { apply Hiff. repeat split; try reflexivity.
    - vm_compute. discriminate.
    - vm_compute. discriminate. }
  destruct (Hrun H) as [Htrace Hfinal].
  split; [exact H|]. split; [rewrite Htrace; reflexivity|exact Hfinal].
Defined.

(** ** The registry over the life of a console *)

Lemma registerHook_entry_fits (cfg : Config) (st : DiagTask)
  (n : option string) (f : option hook_fn) (d : option string) :
  Forall (entry_fits cfg) (mHooks st) ->
  Forall (entry_fits cfg) (mHooks (snd (registerHook cfg st n f d))).
Proof.
  intros H. unfold registerHook.
  destruct n as [nm|], f as [fn|]; cbn [snd]; auto.
  destruct (Nat.ltb_spec (strlen nm) (DIAGTASK_MIN_HOOKNAME_LEN cfg));
    cbn [orb snd]; auto.
  destruct (Nat.ltb_spec (DIAGTASK_MAX_HOOKNAME_LEN cfg) (strlen nm));
    cbn [snd mHooks]; auto.
  apply Forall_app; split; [exact H|].
  constructor; [|constructor]. unfold entry_fits. cbn [name description].
  rewrite (strncpy0_short nm) by assumption.
  repeat split; try assumption.
  destruct d as [d|]; unfold strlen; [|simpl; lia].
  rewrite strncpy0_length. lia.
Qed.

(** X13: in every console reached from a constructor through [process],
    [registerHook] and [enableFeatures], each registered name has a length
    within [DIAGTASK_MIN_HOOKNAME_LEN .. DIAGTASK_MAX_HOOKNAME_LEN] and
    each description has at most [DIAGTASK_HOOKDESC_LEN] characters, so
    that both fit the arrays of [hookEntry_t]. *)
Theorem registry_entries_fit (cfg : Config) (g u r : bool)
  (ops : list operation) :
  Forall (entry_fits cfg)
         (mHooks (run_operations cfg (DiagTask_new g u r) ops)).
Proof.
  unfold run_operations.
  assert (H : Forall (entry_fits cfg) (mHooks (DiagTask_new g u r)))
    by constructor.
  revert H. generalize (DiagTask_new g u r) as st.
  induction ops as [|o ops IH]; intros st H; cbn [fold_left]; [exact H|].
  apply IH. destruct o as [w|n f d|m]; cbn [apply_operation].
  - now rewrite (proj1 (process_keeps cfg w st)).
  - now apply registerHook_entry_fits.
  - exact H.
Qed.

Lemma registerHook_grows (cfg : Config) (st : DiagTask)
  (n : option string) (f : option hook_fn) (d : option string) :
  exists more, mHooks (snd (registerHook cfg st n f d)) = mHooks st ++ more.
Proof.
  unfold registerHook.
  destruct n as [nm|], f as [fn|]; cbn [snd];
    try (exists []; now rewrite app_nil_r).
  destruct (_ || _); cbn [snd mHooks];
    [exists []; now rewrite app_nil_r|eexists; reflexivity].
Qed.

(** X14: no operation removes or reorders a registered hook: after any
    sequence of operations the registry is the old registry followed by the
    hooks registered since. *)
Theorem registry_only_grows (cfg : Config) (st : DiagTask)
  (ops : list operation) :
  exists more, mHooks (run_operations cfg st ops) = mHooks st ++ more.
Proof.
  unfold run_operations. revert st.
  induction ops as [|o ops IH]; intros st; cbn [fold_left].
  - exists []. now rewrite app_nil_r.
  - destruct (IH (apply_operation cfg st o)) as [more Hmore].
    assert (Hstep : exists m1, mHooks (apply_operation cfg st o)
                               = mHooks st ++ m1).
    { destruct o as [w|n f d|m]; cbn [apply_operation].
      - exists []. rewrite app_nil_r. apply process_keeps.
      - apply registerHook_grows.
      - exists []. now rewrite app_nil_r. }
    destruct Hstep as [m1 Hm1].
    exists (m1 ++ more). rewrite Hmore, Hm1. now rewrite app_assoc.
Qed.

(** ** The name array in the tab listing *)

Lemma tab_inside_name (cfg : Config) (st : DiagTask) (c : ascii) :
  strlen (mCurrentValidInput st) <= DIAGTASK_MAX_HOOKNAME_LEN cfg ->
  Forall (fun e => reads_outside_name e = false)
         (snd (processTabCompetion cfg st c)).
Proof.
  intros Hlen. unfold processTabCompetion.
  destruct (_ && _ && _); [|constructor].
  destruct (mCurrentValidInput st) as [|x s] eqn:E; [constructor|].
  assert (Hall : forall l,
    Forall (fun e => reads_outside_name e = false)
           (map (tab_candidate cfg (String x s)) l)).
  { intros l. apply Forall_forall. intros e He.
    apply in_map_iff in He as (h & <- & _). unfold tab_candidate.
    destruct (Nat.leb_spec (strlen (String x s))
                (DIAGTASK_MAX_HOOKNAME_LEN cfg)); [reflexivity|lia]. }
  destruct (privFindHooks _ _) as [|h [|h' l]]; cbn [snd].
  - repeat constructor.
  - repeat constructor.
  - constructor; [reflexivity|apply Hall].
Qed.

Lemma special_inside_name (cfg : Config) (w : World) (st : DiagTask)
  (c : ascii) :
  Forall (fun e => reads_outside_name e = false)
         (snd (privCheckAndProcessSpecialChars cfg w st c)).
Proof.
  unfold privCheckAndProcessSpecialChars, privHelp, privDisplaySeparator.
  repeat match goal with
         | |- context [if ?b then _ else _] => destruct b
         end; cbn [snd app]; repeat constructor;
    apply Forall_forall; intros e He;
    apply in_map_iff in He as (h & <- & _); reflexivity.
Qed.

(** X15: when the input buffer is at most one character longer than a name
    ([DIAGTASK_MAX_HOOK_INPUT_LEN <= DIAGTASK_MAX_HOOKNAME_LEN + 1]), the
    tab listing never prints from outside the name array of a hook: in
    [&h.name[len]] the offset is then at most [DIAGTASK_MAX_HOOKNAME_LEN]. *)
Theorem tab_listing_inside_name_array
  (cfg : Config) (w : World) (st : DiagTask) :
  DIAGTASK_MAX_HOOK_INPUT_LEN cfg <= S (DIAGTASK_MAX_HOOKNAME_LEN cfg) ->
  buffer_ok cfg st ->
  Forall (fun e => reads_outside_name e = false) (trace (process cfg w st)).
Proof.
  intros Hcfg [Hlen _]. unfold process.
  destruct (mGetchar st); [|constructor]. cbn [negb].
  destruct (getch w <? 0)%Z; [constructor|]. cbn [trace].
  apply Forall_app. split.
  { apply Forall_forall. intros e He. apply echo_only_putchar in He.
    now subst e. }
  generalize (normalize (getch w)) as c. intros c.
  destruct (process_char_cases cfg w st c)
    as [[_ ->]|[(_ & _ & s & st1 & out & Hp & _ & ->)
               |[(Hnf & _ & st2 & out2 & Ht & ->)|[_ ->]]]];
    cbn [trace].
  - constructor.
  - pose proof (special_inside_name cfg w st (char_of_int c)) as K.
    now rewrite Hp in K.
  - pose proof (tab_inside_name cfg st (char_of_int c)) as K.
    rewrite Ht in K. apply K. lia.
  - apply Forall_forall. intros e He.
    destruct (accumulate_plain_effects st (strlen (mCurrentValidInput st))
                (char_of_int c)) as (A & _).
    destruct (A _ He) as [->|(f & a & ->)]; reflexivity.
Qed.

(** With an input buffer of 21 characters the listing after twenty typed
    characters stays inside the name arrays. *)
Lemma tab_listing_inside_name_array_witness :
  Forall (fun e => reads_outside_name e = false)
    (trace (process short_input_config (key SPECIAL_KEYWORD_TAB)
              (type_text short_input_config
                 (console_with [("a*"%string, 1); ("ab*"%string, 2)]
                               feature_TabCompletion)
                 "abcdefghijklmnopqrst"))).
Proof.
  apply (tab_listing_inside_name_array short_input_config
           (key SPECIAL_KEYWORD_TAB)).
  - vm_compute. lia.
  - split; [vm_compute; lia|right; vm_compute; discriminate].
Defined.

(** In the default build, where the input buffer holds ten characters more
    than a name, the listing does print from outside the name array. *)
Example tab_listing_outside_name_array :
  existsb reads_outside_name
    (trace (process default_config (key SPECIAL_KEYWORD_TAB)
              long_input_two_candidates)) = true.
Proof. reflexivity. Qed.

(** ** A console as constructed *)

Lemma has_feature_none (g u r : bool) (f : N) :
  has_feature (DiagTask_new g u r) f = false.
Proof. reflexivity. Qed.

(** X16: a console as its constructors leave it (no hook, no feature) only
    echoes: whatever byte arrives, in every build, nothing is printed but
    the echo, nothing is called, [process] returns and the console is as
    it was. *)
Theorem fresh_console_only_echoes (cfg : Config) (g u r : bool) (w : World) :
  final (process cfg w (DiagTask_new g u r)) = DiagTask_new g u r
  /\ trace (process cfg w (DiagTask_new g u r))
     = (if g && (0 <=? getch w)%Z then echo (normalize (getch w)) else [])
  /\ ctl (process cfg w (DiagTask_new g u r)) = Returns.
Proof.
  unfold process. cbn [mGetchar DiagTask_new].
  destruct g; cbn [negb andb]; [|repeat split].
  destruct (Z.ltb_spec (getch w) 0) as [Hneg|Hpos];
    destruct (Z.leb_spec 0 (getch w)); try lia; [repeat split|].
  cbn [final trace ctl].
  generalize (normalize (getch w)) as c. intros c.
  change (mkDiagTask [] feature_None EmptyString true u r 0)
    with (DiagTask_new true u r).
  destruct (process_char_cases cfg w (DiagTask_new true u r) c)
    as [[_ ->]|[(_ & _ & s & st1 & out & Hp & Hs & _)
               |[(_ & _ & st2 & out2 & Ht & _)|[_ ->]]]].
  - cbn [final trace ctl]. rewrite app_nil_r. repeat split.
  - rewrite unarmed_not_handled in Hp
      by (unfold keyword_armed; rewrite has_feature_none;
          now rewrite andb_false_r).
    injection Hp as <- _ _. contradiction.
  - unfold processTabCompetion in Ht. rewrite has_feature_none in Ht.
    rewrite andb_false_r in Ht. discriminate.
  - unfold accumulate. cbn [mHooks set_input DiagTask_new privFindHooks
                             fold_left final trace ctl].
    rewrite app_nil_r. repeat split.
Qed.

(** ** The match engine in terms of prefixes *)

(** X17: for lengths that fit the 16-bit variables, a registered hook is
    found for an input exactly when its static portion is a prefix of the
    input or the input is a prefix of its static portion. *)
Theorem privFindHooks_prefix_characterisation
  (hooks : diagtask_vector) (prefix : string) (h : hookEntry_t) :
  fits_uint16 prefix ->
  Forall (fun x => fits_uint16 (name x)) hooks ->
  (In h (privFindHooks hooks prefix)
   <-> In h hooks
       /\ (String.prefix (static_part (name h)) prefix = true
           \/ String.prefix prefix (static_part (name h)) = true)).
Proof.
  intros Hp Hn. rewrite In_privFindHooks. rewrite Forall_forall in Hn.
  split; intros [Hin H]; (split; [exact Hin|]); specialize (Hn _ Hin).
  - rewrite hook_selected_is_candidate in H by assumption.
    now apply is_candidate_prefix.
  - rewrite hook_selected_is_candidate by assumption.
    now apply is_candidate_prefix.
Qed.

(** ["cmd *"] is found for the partial input ["cm"] and for ["cmd x"]. *)
Lemma privFindHooks_prefix_characterisation_witness :
  In (mkHook "cmd *" "" 7) (privFindHooks [mkHook "cmd *" "" 7] "cm")
  /\ In (mkHook "cmd *" "" 7) (privFindHooks [mkHook "cmd *" "" 7] "cmd x").
Proof.
  split.
  - apply (privFindHooks_prefix_characterisation [mkHook "cmd *" "" 7] "cm").
    + unfold fits_uint16. simpl. lia.
    + repeat constructor; unfold fits_uint16; simpl; lia.
    + split; [now left|right; reflexivity].
  - apply (privFindHooks_prefix_characterisation [mkHook "cmd *" "" 7]
             "cmd x").
    + unfold fits_uint16. simpl. lia.
    + repeat constructor; unfold fits_uint16; simpl; lia.
    + split; [now left|left; reflexivity].
Defined.

(** ** The 16-bit lengths in a running console *)

(** X18: in a build whose name array and input buffer fit sixteen bits, the
    wrap-around of the length variables of [privFindHooks] never shows: in
    every console reached from a constructor, the hooks found for the
    current input, and for it with one more character, are the hooks whose
    name agrees with the input on the first [min staticLength (length
    input)] characters. *)
Theorem privFindHooks_exact_in_reachable_console
  (cfg : Config) (g u r : bool) (ops : list operation) (c : ascii) :
  (Z.of_nat (DIAGTASK_MAX_HOOKNAME_LEN cfg) < 65536)%Z ->
  (Z.of_nat (DIAGTASK_MAX_HOOK_INPUT_LEN cfg) < 65535)%Z ->
  privFindHooks (mHooks (run_operations cfg (DiagTask_new g u r) ops))
    (mCurrentValidInput (run_operations cfg (DiagTask_new g u r) ops))
  = findCandidates (mHooks (run_operations cfg (DiagTask_new g u r) ops))
      (mCurrentValidInput (run_operations cfg (DiagTask_new g u r) ops))
  /\ privFindHooks (mHooks (run_operations cfg (DiagTask_new g u r) ops))
       (store_at_end
          (mCurrentValidInput (run_operations cfg (DiagTask_new g u r) ops))
          c)
     = findCandidates (mHooks (run_operations cfg (DiagTask_new g u r) ops))
         (store_at_end
            (mCurrentValidInput
               (run_operations cfg (DiagTask_new g u r) ops)) c).
Proof. intros Hn Hi. exact (reachable_candidates cfg g u r ops c Hn Hi). Qed.

Lemma privFindHooks_exact_in_reachable_console_witness :
  privFindHooks
    (mHooks (run_operations default_config (DiagTask_new true false false)
               [OpRegisterHook (Some "abc"%string) (Some 1) None;
                OpProcess (key "a")]))
    "a"
  = findCandidates
      (mHooks (run_operations default_config (DiagTask_new true false false)
                 [OpRegisterHook (Some "abc"%string) (Some 1) None;
                  OpProcess (key "a")]))
      "a".
Proof.
  destruct (privFindHooks_exact_in_reachable_console default_config
              true false false
              [OpRegisterHook (Some "abc"%string) (Some 1) None;
               OpProcess (key "a")] NUL
              ltac:(vm_compute; reflexivity) ltac:(vm_compute; reflexivity))
    as [H _].
  exact H.
Defined.
